(** * Gatekeeper: the verification core of py_vsb_gatekeeper

    A shallow embedding of
      - [bot/services/cas_service.py]          (state tokens, ticket validation,
                                                 callback flow, audit trail),
      - [bot/services/verification_service.py] (classifier, verification
                                                 profile, role preservation),
      - [bot/db/models.py]                     (the rows these services touch),
      - [bot/web/app.py]                       (the callback route),
      - [bot/cogs/verification.py]             (the verification button),
      - [bot/cogs/verification_admin.py]       (the re-verification command),
      - [bot/cogs/user_events.py]              (join, leave, ban and unban),
    followed by the properties of the verification subsystem.

    Conventions of the embedding.
      - Python [int] is [Z]; [str] is [string] (ASCII code points: [lower]
        folds A-Z only and [strip] removes the ASCII white space characters).
      - A [datetime] is a number of microseconds, a [Z]; [datetime.now] is an
        input of the function that calls it.
      - A coroutine is a function on the world it reads and writes: the
        database tables, the log, and, where Discord is involved, the member.
      - What an external collaborator answers (the CAS server, the Discord
        API, a failing database statement, SHA-256) is an input of the model. *)

From Stdlib Require Import ZArith String Ascii List Bool Lia DecimalString.
From Stdlib Require Import QArith Qround.
From stdpp Require Import gmap strings list.

Set Warnings "-register-all".

Local Open Scope string_scope.
Local Open Scope list_scope.
Local Open Scope Z_scope.

(** ** Python strings *)

Module PyStr.

(** [str(n)] for an [int]. *)
Definition str_of_int (n : Z) : string :=
  NilZero.string_of_int (Z.to_int n).

Definition lower_char (c : ascii) : ascii :=
  let n := nat_of_ascii c in
  if ((65 <=? n)%nat && (n <=? 90)%nat)%bool then ascii_of_nat (n + 32) else c.

(** [s.lower()] *)
Fixpoint lower (s : string) : string :=
  match s with
  | EmptyString => EmptyString
  | String c r => String (lower_char c) (lower r)
  end.

(** [s.startswith(p)] *)
Fixpoint startswith (p s : string) : bool :=
  match p, s with
  | EmptyString, _ => true
  | String _ _, EmptyString => false
  | String a p', String b s' => if Ascii.eqb a b then startswith p' s' else false
  end.

(** [k in s] for two strings: [k] occurs in [s] as a contiguous block. *)
Fixpoint contains (k s : string) : bool :=
  startswith k s ||
  match s with
  | EmptyString => false
  | String _ r => contains k r
  end.

(** The characters [str.isspace] accepts below 128. *)
Definition is_space (c : ascii) : bool :=
  let n := nat_of_ascii c in
  ((9 <=? n)%nat && (n <=? 13)%nat) || ((28 <=? n)%nat && (n <=? 32)%nat).

Fixpoint lstrip (s : string) : string :=
  match s with
  | EmptyString => EmptyString
  | String c r => if is_space c then lstrip r else s
  end.

Fixpoint rstrip (s : string) : string :=
  match s with
  | EmptyString => EmptyString
  | String c r =>
      match rstrip r with
      | EmptyString => if is_space c then EmptyString else String c EmptyString
      | r' => String c r'
      end
  end.

(** [s.strip()] *)
Definition strip (s : string) : string := rstrip (lstrip s).

(** [s.split(sep)] for a one-character separator. *)
Fixpoint split (sep : ascii) (s : string) : list string :=
  match s with
  | EmptyString => [EmptyString]
  | String c r =>
      if Ascii.eqb c sep then EmptyString :: split sep r
      else match split sep r with
           | h :: t => String c h :: t
           | [] => [String c EmptyString]
           end
  end.

(** [s.split(sep, 1)[-1]]: what follows the first [sep], or all of [s]. *)
Fixpoint after_first (sep : ascii) (s : string) : option string :=
  match s with
  | EmptyString => None
  | String c r => if Ascii.eqb c sep then Some r else after_first sep r
  end.

Definition split1_last (sep : ascii) (s : string) : string :=
  default s (after_first sep s).

(** [s[:n]] for [n >= 0]. *)
Fixpoint slice_to (n : nat) (s : string) : string :=
  match n, s with
  | O, _ => EmptyString
  | S _, EmptyString => EmptyString
  | S m, String c r => String c (slice_to m r)
  end.

(** Truth value of a [str]. *)
Definition truthy (s : string) : bool :=
  match s with EmptyString => false | _ => true end.


End PyStr.

(** ** Logging *)

Inductive Level := DEBUG | INFO | WARNING | ERROR.

Record LogRecord := mkLog { levelname : Level; message : string }.

(** ** Identity classifier ([VerificationService._determine_user_type]) *)

Module Classifier.
Import PyStr.

Definition teacher_affiliations : list string :=
  ["employee"; "faculty"; "staff"; "teacher"].

Definition teacher_groups : list string :=
  ["employees"; "staff"; "faculty"; "teachers"].

(** [any(k in x.lower() for k in keywords)] *)
Definition any_keyword (keywords : list string) (x : string) : bool :=
  existsb (fun k => contains k (lower x)) keywords.

(** The [for ... : if any(...): return 2] loop: the element at which the
    loop returns, if it does. *)
Fixpoint first_hit (keywords : list string) (xs : list string) : option string :=
  match xs with
  | [] => None
  | x :: rest => if any_keyword keywords x then Some x else first_hit keywords rest
  end.

(** Returns the user type (0 student, 2 teacher) and the debug line that
    the branch taken writes. *)
Definition _determine_user_type (groups affiliations : list string)
  : Z * LogRecord :=
  match first_hit teacher_affiliations affiliations with
  | Some affiliation =>
      (2, mkLog DEBUG
            ("User classified as teacher based on affiliation: " +:+ affiliation))
  | None =>
      match first_hit teacher_groups groups with
      | Some group =>
          (2, mkLog DEBUG
                ("User classified as teacher based on group: " +:+ group))
      | None => (0, mkLog DEBUG "User classified as student (default)")
      end
  end.

Definition Elevated : Z := 2.


End Classifier.

(** ** Rows of [bot/db/models.py]

    The columns that the database fills on its own and that no code reads
    or writes (autoincrement [id], [created_at]) are left out. *)

Definition datetime := Z.

(** [key in d] for an optional entry of a dictionary. *)
Definition present {A} (o : option A) : bool :=
  match o with Some _ => true | None => false end.

(** The [cas_data] dictionary: each key is present ([Some]) or absent. The
    empty dictionary has every key absent. *)
Module CasData.
Record t := mk {
  uid : option string;
  login : option string;
  attributes : option (gmap string string);
  mail : option string;
  givenName : option string;
  sn : option string;
  cn : option string;
  groups : option (list string);
  eduPersonAffiliation : option (list string)
}.

Definition empty : t := mk None None None None None None None None None.

(** Truth value of the dictionary: it has a key. *)
Definition truthy (d : t) : bool :=
  present (uid d) || present (login d) || present (attributes d)
  || present (mail d) || present (givenName d) || present (sn d)
  || present (cn d) || present (groups d) || present (eduPersonAffiliation d).
End CasData.

Module User.
Record t := mk {
  discord_id : Z;
  login : option string;
  activity : Z;
  type : Z;
  verification : option string;
  real_name : option string;
  attributes : option (gmap string string);
  verified_at : option datetime;
  is_bot : bool
}.
End User.

Module VerificationAudit.
Record t := mk {
  discord_id : option Z;
  login : string;
  cas_username : string;
  state_sha256 : option string;
  ticket_sha256 : option string;
  result : string;
  error_message : option string
}.
End VerificationAudit.

Module VerificationState.
Record t := mk {
  state : string;
  discord_id : Z;
  guild_id : Z;
  is_initial : bool;
  expires_at : datetime;
  ip_address : option string;
  user_agent : option string
}.
End VerificationState.

(** The JSON value of [preserved_roles]: a dictionary with the keys
    ["role_ids"] and ["preserved_at"], each present or absent. *)
Module PreservedRoles.
Record t := mk {
  role_ids : option (list Z);
  preserved_at : option datetime
}.

(** Truth value of the column: not [None] and not the empty dictionary. *)
Definition truthy (v : option t) : bool :=
  match v with
  | None => false
  | Some d => present (role_ids d) || present (preserved_at d)
  end.
End PreservedRoles.

Module UserVerificationData.
Record t := mk {
  discord_id : Z;
  cas_login : string;
  cas_real_name : option string;
  cas_email : option string;
  verified_at : datetime;
  last_reverified_at : datetime;
  reverification_required : bool;
  reverification_reason : option string;
  reverification_requested_at : option datetime;
  reverification_wave_id : option Z;
  preserved_roles : option PreservedRoles.t;
  updated_at : datetime
}.
End UserVerificationData.

(** ** The database

    [users] and [user_verification_data] are keyed by their primary key
    [discord_id]; [verification_states] and [verification_audit] are kept in
    row order, the order in which a [select] returns them. *)

Record Database := mkDatabase {
  users : gmap Z User.t;
  user_verification_data : gmap Z UserVerificationData.t;
  verification_states : list VerificationState.t;
  verification_audit : list VerificationAudit.t
}.

Definition set_users (f : gmap Z User.t -> gmap Z User.t) (d : Database) :=
  mkDatabase (f (users d)) (user_verification_data d)
             (verification_states d) (verification_audit d).

Definition set_user_verification_data
    (f : gmap Z UserVerificationData.t -> gmap Z UserVerificationData.t)
    (d : Database) :=
  mkDatabase (users d) (f (user_verification_data d))
             (verification_states d) (verification_audit d).

Definition set_verification_states
    (f : list VerificationState.t -> list VerificationState.t) (d : Database) :=
  mkDatabase (users d) (user_verification_data d)
             (f (verification_states d)) (verification_audit d).

Definition set_verification_audit
    (f : list VerificationAudit.t -> list VerificationAudit.t) (d : Database) :=
  mkDatabase (users d) (user_verification_data d)
             (verification_states d) (f (verification_audit d)).

(** ** Coroutines: state and exceptions *)

Inductive Exception :=
| DatabaseError (msg : string)     (* any exception of a database statement *)
| IntegrityError (msg : string)    (* a violated constraint of the schema *)
| ClientError (msg : string)       (* aiohttp: connection, timeout *)
| ParseError (msg : string)        (* xml.etree.ElementTree.ParseError *)
| Forbidden (msg : string)         (* discord.Forbidden *)
| HTTPException (msg : string).    (* any other failure of a Discord call *)

(** [str(e)] *)
Definition str_exc (e : Exception) : string :=
  match e with
  | DatabaseError m | IntegrityError m | ClientError m
  | ParseError m | Forbidden m | HTTPException m => m
  end.

Inductive Outcome (A : Type) :=
| Returns (a : A)
| Raises (e : Exception).
Arguments Returns {A} a.
Arguments Raises {A} e.

(** [roles_added] lists the [member.add_roles] calls that Discord carried
    out: the member and the roles handed over, oldest first. *)
Record World := mkWorld {
  db : Database;
  log : list LogRecord;
  roles_added : list (Z * list Z)
}.

Definition M (A : Type) : Type := World -> Outcome A * World.

Definition ret {A} (a : A) : M A := fun w => (Returns a, w).

Definition raise {A} (e : Exception) : M A := fun w => (Raises e, w).

Definition bind {A B} (m : M A) (k : A -> M B) : M B :=
  fun w =>
    match m w with
    | (Returns a, w') => k a w'
    | (Raises e, w') => (Raises e, w')
    end.

(** [try: m  except Exception as e: h e] *)
Definition try_except {A} (m : M A) (h : Exception -> M A) : M A :=
  fun w =>
    match m w with
    | (Returns a, w') => (Returns a, w')
    | (Raises e, w') => h e w'
    end.

#[global] Instance M_ret : MRet M := @ret.
#[global] Instance M_bind : MBind M := fun A B k m => bind m k.

(** [logger.<level>(msg)] *)
Definition logger (l : Level) (msg : string) : M unit :=
  fun w => (Returns tt, mkWorld (db w) (log w ++ [mkLog l msg]) (roles_added w)).

Definition read_db : M Database := fun w => (Returns (db w), w).

(** A statement of a session that the database carries out ([fault = None])
    or answers with an exception. A write reaches the tables with the
    [commit] that follows it; a failed one leaves them as they were,
    [get_session] rolling back. *)
Definition execute (fault : option Exception) : M unit :=
  match fault with
  | None => ret tt
  | Some e => raise e
  end.

Definition commit (fault : option Exception) (f : Database -> Database) : M unit :=
  match fault with
  | None => fun w => (Returns tt, mkWorld (f (db w)) (log w) (roles_added w))
  | Some e => raise e
  end.

(** ** XML documents ([xml.etree.ElementTree.Element]) *)

Inductive Element :=
| mkElement (tag : string) (attrib : list (string * string))
            (text : option string) (children : list Element).

Module ET.
Definition tag (e : Element) := let 'mkElement t _ _ _ := e in t.
Definition attrib (e : Element) := let 'mkElement _ a _ _ := e in a.
Definition text (e : Element) := let 'mkElement _ _ x _ := e in x.
Definition children (e : Element) := let 'mkElement _ _ _ c := e in c.

(** The tag that ["cas:<name>"] stands for under
    [ns = {"cas": "http://www.yale.edu/tp/cas"}]. *)
Definition cas (name : string) : string :=
  "{http://www.yale.edu/tp/cas}" +:+ name.

(** [e.find(path, ns)]: the first child of [e] with that tag. *)
Definition find (qname : string) (e : Element) : option Element :=
  List.find (fun c => String.eqb (tag c) qname) (children e).

(** [e.findtext(path, default, ns)] *)
Definition findtext (qname : string) (default : string) (e : Element) : string :=
  match find qname e with
  | None => default
  | Some c => match text c with Some x => x | None => "" end
  end.

(** [e.attrib.get(key)] *)
Definition attrib_get (key : string) (e : Element) : option string :=
  snd <$> List.find (fun kv => String.eqb (fst kv) key) (attrib e).
End ET.

(** What the validation request brings back: [session.get] or [resp.text]
    raises, [ET.fromstring] rejects the body, or there is a document. *)
Inductive Response :=
| RequestFailed (e : Exception)
| Malformed (msg : string)
| Document (root : Element).

(** ** Configuration ([Config], the fields the core reads) *)

Record Config := mkConfig {
  cas_login_url : string;
  cas_validate_url : string;
  service_url : string;
  state_secret_key : string;
  verification_state_expiry_minutes : Z;
  student_role_id : Z;
  teacher_role_id : Z
}.

(** The dictionary [handle_callback] returns. *)
Inductive CallbackResult :=
| Success (discord_id guild_id : Z) (cas_data : CasData.t) (is_reverification : bool)
| Failure (error : string).

(** The statements of [handle_callback] that the database may refuse. *)
Record Faults := mkFaults {
  select_states_fault : option Exception;
  delete_state_fault : option Exception;
  audit_fault : option Exception;
  failure_audit_fault : option Exception
}.

Definition no_faults : Faults := mkFaults None None None None.

(** ** [CASService] *)

Module CASService.
Section CASService.
Import PyStr.

(** [hashlib.sha256(s.encode()).hexdigest()] and [urllib.parse.urlencode]. *)
Variable sha256 : string -> string.
Variable urlencode : list (string * string) -> string.
Variable config : Config.

(** [f"{state}:{discord_id}:{self.state_secret}"], hashed. *)
Definition state_hash (state : string) (discord_id : Z) : string :=
  sha256 (state +:+ ":" +:+ str_of_int discord_id +:+ ":"
                +:+ state_secret_key config).

(** [timedelta(minutes=n)] in microseconds. *)
Definition minutes (n : Z) : Z := n * 60000000.

(** [session.add(verification_state)]: the primary key [state] is fresh
    and the foreign key [discord_id] names a row of [users]. *)
Definition insert_state (vs : VerificationState.t) (d : Database)
  : option Exception :=
  if existsb (fun r => String.eqb (VerificationState.state r)
                                  (VerificationState.state vs))
             (verification_states d)
  then Some (IntegrityError "duplicate key: verification_states.state")
  else if present (users d !! VerificationState.discord_id vs) then None
  else Some (IntegrityError "foreign key: verification_states.discord_id").

(** [state] is the value of [secrets.token_urlsafe(32)]. *)
Definition generate_verification_url
    (now : datetime) (state : string)
    (discord_id guild_id : Z) (is_reverification : bool)
    (ip_address user_agent : option string) : M (string * string) :=
  let state_hash := state_hash state discord_id in
  let expires_at := now + minutes (verification_state_expiry_minutes config) in
  let verification_state :=
    VerificationState.mk state_hash discord_id guild_id
      (negb is_reverification) expires_at ip_address user_agent in
  d ← read_db;
  commit (insert_state verification_state d)
    (set_verification_states (fun rows => (rows ++ [verification_state])%list));;
  let service_url_with_state := service_url config +:+ "?state=" +:+ state in
  let auth_url := cas_login_url config +:+ "?"
                    +:+ urlencode [("service", service_url_with_state)] in
  logger INFO ("Generated verification URL for Discord user "
                 +:+ str_of_int discord_id);;
  mret (auth_url, state).

(** [str(x)] of an optional string. *)
Definition str_opt (x : option string) : string :=
  match x with Some s => s | None => "None" end.

(** [for child in cas_attrs: attributes[tag] = (child.text or "").strip()] *)
Definition read_attributes (cas_attrs : Element) : gmap string string :=
  fold_left
    (fun attributes child =>
       <[ split1_last "}" (ET.tag child) := strip (default "" (ET.text child)) ]>
         attributes)
    (ET.children cas_attrs) ∅.

(** [attributes.get(k, "").split(",") if attributes.get(k) else []] *)
Definition comma_list (attributes : gmap string string) (k : string) : list string :=
  match attributes !! k with
  | Some v => if truthy v then split "," v else []
  | None => []
  end.

(** The body of the [try] of [validate_cas_ticket]. *)
Definition parse_response (response : Response) : M (option CasData.t) :=
  match response with
  | RequestFailed e => raise e
  | Malformed msg => raise (ParseError msg)
  | Document root =>
      match ET.find (ET.cas "authenticationSuccess") root with
      | None =>
          let failure := ET.find (ET.cas "authenticationFailure") root in
          let code := match failure with
                      | Some f => ET.attrib_get "code" f
                      | None => Some "UNKNOWN"
                      end in
          let msg := match failure with
                     | Some f => strip (default "" (ET.text f))
                     | None => "CAS authentication failed"
                     end in
          logger ERROR ("CAS validation failed: " +:+ str_opt code
                          +:+ " - " +:+ msg);;
          mret None
      | Some success =>
          let username := ET.findtext (ET.cas "user") "" success in
          let attributes :=
            match ET.find (ET.cas "attributes") success with
            | Some cas_attrs => read_attributes cas_attrs
            | None => ∅
            end in
          let user_info :=
            CasData.mk (Some username) (Some username) (Some attributes)
              (Some (default "" (attributes !! "mail")))
              (Some (default "" (attributes !! "givenName")))
              (Some (default "" (attributes !! "sn")))
              (Some (default "" (attributes !! "cn")))
              (Some (comma_list attributes "groups"))
              (Some (comma_list attributes "eduPersonAffiliation")) in
          logger INFO ("CAS ticket validated successfully for user: "
                         +:+ username);;
          mret (Some user_info)
      end
  end.

Definition validate_cas_ticket (response : Response) (ticket state : string)
  : M (option CasData.t) :=
  logger DEBUG ("Validating CAS ticket at: " +:+ cas_validate_url config);;
  try_except (parse_response response)
    (fun e =>
       match e with
       | ParseError m =>
           logger ERROR ("Failed to parse CAS XML response: " +:+ m);;
           mret None
       | _ =>
           logger ERROR ("CAS ticket validation error: " +:+ str_exc e);;
           mret None
       end).

(** The answers that are not a success document: the request failed, the
    body is not XML, or the document has no [cas:authenticationSuccess]. *)
Definition rejected (response : Response) : Prop :=
  match response with
  | RequestFailed _ | Malformed _ => True
  | Document root => ET.find (ET.cas "authenticationSuccess") root = None
  end.

Definition _log_verification_audit
    (fault : option Exception)
    (discord_id : option Z) (cas_data : CasData.t) (state_hash ticket : string)
    (result : string) (error_message : option string)
    (ip_address : option string) : M unit :=
  let audit :=
    VerificationAudit.mk discord_id
      (default "unknown" (CasData.login cas_data))
      (default "unknown" (CasData.uid cas_data))
      (Some state_hash) (Some (sha256 ticket)) result error_message in
  commit fault (set_verification_audit (fun rows => (rows ++ [audit])%list)).

(** [test_hash == vs.state] *)
Definition hash_matches (state : string) (vs : VerificationState.t) : bool :=
  String.eqb (state_hash state (VerificationState.discord_id vs))
             (VerificationState.state vs).

(** [session.delete(matching_state)]: the row with its primary key goes. *)
Definition delete_state (matching_state : VerificationState.t)
    (rows : list VerificationState.t) : list VerificationState.t :=
  List.filter
    (fun r => negb (String.eqb (VerificationState.state r)
                               (VerificationState.state matching_state)))
    rows.

(** The raw token [state] was handed out once: the rows it opens are one
    row of the table (they share the primary key). *)
Definition issued_once (state : string) (rows : list VerificationState.t) : Prop :=
  forall vs vs',
    In vs rows -> In vs' rows ->
    hash_matches state vs = true -> hash_matches state vs' = true ->
    VerificationState.state vs = VerificationState.state vs'.

(** The rows [select(VerificationState).where(expires_at > now)] returns. *)
Definition live (now : datetime) (rows : list VerificationState.t)
  : list VerificationState.t :=
  List.filter (fun vs => (now <? VerificationState.expires_at vs)%Z) rows.

Definition handle_callback
    (now : datetime) (faults : Faults) (response : Response)
    (ticket state : string) (ip_address : option string) : M CallbackResult :=
  try_except
    (execute (select_states_fault faults);;
     d ← read_db;
     let verification_states := live now (verification_states d) in
     match List.find (hash_matches state) verification_states with
     | None =>
         logger WARNING ("Invalid or expired state: "
                           +:+ slice_to 8 state +:+ "...");;
         mret (Failure "Invalid or expired verification state")
     | Some matching_state =>
         let discord_id := VerificationState.discord_id matching_state in
         let guild_id := VerificationState.guild_id matching_state in
         let is_reverification :=
           negb (VerificationState.is_initial matching_state) in
         commit (delete_state_fault faults)
           (set_verification_states (delete_state matching_state));;
         cas_data ← validate_cas_ticket response ticket state;
         match cas_data with
         | None => mret (Failure "Failed to validate CAS ticket")
         | Some cas_data =>
             if negb (CasData.truthy cas_data)
             then mret (Failure "Failed to validate CAS ticket")
             else
               _log_verification_audit (audit_fault faults)
                 (Some discord_id) cas_data
                 (VerificationState.state matching_state) ticket
                 "success" None ip_address;;
               logger INFO ("Successful verification for Discord user "
                              +:+ str_of_int discord_id);;
               mret (Success discord_id guild_id cas_data is_reverification)
         end
     end)
    (fun e =>
       logger ERROR ("Callback handling error: " +:+ str_exc e);;
       try_except
         (_log_verification_audit (failure_audit_fault faults)
            None CasData.empty (slice_to 64 state) ticket
            "failure" (Some (str_exc e)) ip_address)
         (fun _ => mret tt);;
       mret (Failure (str_exc e))).

End CASService.
End CASService.

(** ** Discord *)

Record Guild := mkGuild {
  default_role : Z;          (* [guild.default_role.id], the everyone role *)
  guild_roles : list Z       (* the ids [guild.get_role] resolves *)
}.

Record Member := mkMember {
  id : Z;
  roles : list Z;            (* [r.id for r in member.roles] *)
  guild : Guild
}.

(** [guild.get_role(role_id)] *)
Definition get_role (g : Guild) (role_id : Z) : option Z :=
  if existsb (Z.eqb role_id) (guild_roles g) then Some role_id else None.

(** [await member.add_roles] on the roles given: Discord carries the call
    out or answers with an exception. *)
Definition add_roles (answer : option Exception) (member : Member)
    (roles_to_add : list Z) : M unit :=
  match answer with
  | Some e => raise e
  | None =>
      fun w => (Returns tt,
                mkWorld (db w) (log w)
                        (roles_added w ++ [(id member, roles_to_add)]))
  end.

(** [len(l)] as an [int], printed. *)
Definition str_len {A} (l : list A) : string :=
  PyStr.str_of_int (Z.of_nat (length l)).

(** ** [VerificationService]

    The database carries out every statement of this service, except that a
    [commit] checks the [unique] constraints of the columns it writes. *)

Module VerificationService.
Section VerificationService.
Import PyStr.

Variable config : Config.

Definition is_verified (discord_id : Z) : M bool :=
  d ← read_db;
  match user_verification_data d !! discord_id with
  | None => mret false
  | Some ver_data =>
      if UserVerificationData.reverification_required ver_data
      then mret false
      else mret true
  end.

Definition requires_reverification (discord_id : Z)
  : M (bool * option string) :=
  d ← read_db;
  match user_verification_data d !! discord_id with
  | None => mret (false, None)
  | Some ver_data =>
      mret (UserVerificationData.reverification_required ver_data,
            UserVerificationData.reverification_reason ver_data)
  end.

(** [users.login] and [user_verification_data.cas_login] are [unique]:
    the flush fails when another row holds [login]. *)
Definition unique_login (discord_id : Z) (login : string) (d : Database)
  : option Exception :=
  if existsb (fun kv => negb (fst kv =? discord_id)%Z
                        && bool_decide (User.login (snd kv) = Some login))
             (map_to_list (users d))
  then Some (IntegrityError "duplicate key: users.login")
  else if existsb (fun kv => negb (fst kv =? discord_id)%Z
                     && String.eqb (UserVerificationData.cas_login (snd kv)) login)
                  (map_to_list (user_verification_data d))
  then Some (IntegrityError "duplicate key: user_verification_data.cas_login")
  else None.

(** [now_user] is the clock read for [User.verified_at], [now] the one
    bound to the name [now], and [utcnow] the one the column default of
    [updated_at] makes when a profile is inserted. *)
Definition save_verification_data
    (now_user now utcnow : datetime)
    (discord_id : Z) (cas_data : CasData.t) (is_reverification : bool)
  : M unit :=
  let login := lower (default "" (CasData.login cas_data)) in
  let email := default "" (CasData.mail cas_data) in
  let first_name := default "" (CasData.givenName cas_data) in
  let last_name := default "" (CasData.sn cas_data) in
  let full_name :=
    strip (default (first_name +:+ " " +:+ last_name) (CasData.cn cas_data)) in
  let groups := default [] (CasData.groups cas_data) in
  let affiliations := default [] (CasData.eduPersonAffiliation cas_data) in
  let '(user_type, line) := Classifier._determine_user_type groups affiliations in
  logger (levelname line) (message line);;
  d ← read_db;
  let attributes := default ∅ (CasData.attributes cas_data) in
  let user :=
    match users d !! discord_id with
    | None =>
        User.mk discord_id (Some login) 1 user_type None (Some full_name)
                (Some attributes) (Some now_user) false
    | Some user =>
        User.mk (User.discord_id user) (Some login) 1 user_type
                (User.verification user) (Some full_name)
                (Some attributes) (Some now_user) (User.is_bot user)
    end in
  let ver_data :=
    match user_verification_data d !! discord_id with
    | None =>
        UserVerificationData.mk discord_id login (Some full_name) (Some email)
          now now false None None None None utcnow
    | Some ver_data =>
        UserVerificationData.mk
          (UserVerificationData.discord_id ver_data)
          login (Some full_name) (Some email)
          (UserVerificationData.verified_at ver_data)
          now
          (if is_reverification then false
           else UserVerificationData.reverification_required ver_data)
          (if is_reverification then None
           else UserVerificationData.reverification_reason ver_data)
          (UserVerificationData.reverification_requested_at ver_data)
          (if is_reverification then None
           else UserVerificationData.reverification_wave_id ver_data)
          (UserVerificationData.preserved_roles ver_data)
          now
    end in
  commit (unique_login discord_id login d)
    (fun d => set_user_verification_data <[discord_id := ver_data]>
                (set_users <[discord_id := user]> d));;
  logger INFO ("Saved verification data for user " +:+ str_of_int discord_id
                 +:+ " (login: " +:+ login +:+ ")").

(** The [try: add_roles ... except discord.Forbidden ... except Exception]
    of [assign_verified_roles]. *)
Definition assign_verified_roles (answer : option Exception)
    (member : Member) (cas_login : string) : M unit :=
  d ← read_db;
  match users d !! id member with
  | None =>
      logger WARNING ("User " +:+ str_of_int (id member)
                        +:+ " not found in database during role assignment")
  | Some user =>
      let user_type := User.type user in
      roles_to_add ←
        (if (user_type =? 2)%Z then
           match get_role (guild member) (teacher_role_id config) with
           | Some teacher_role =>
               logger DEBUG ("Adding teacher role to " +:+ str_of_int (id member));;
               mret [teacher_role]
           | None => mret []
           end
         else
           match get_role (guild member) (student_role_id config) with
           | Some student_role =>
               logger DEBUG ("Adding student role to " +:+ str_of_int (id member));;
               mret [student_role]
           | None => mret []
           end);
      match roles_to_add with
      | [] => mret tt
      | _ =>
          try_except
            (add_roles answer member roles_to_add;;
             logger INFO ("Assigned " +:+ str_len roles_to_add +:+ " roles to "
                            +:+ str_of_int (id member)))
            (fun e =>
               match e with
               | Forbidden _ =>
                   logger ERROR ("Missing permissions to assign roles to "
                                   +:+ str_of_int (id member))
               | _ =>
                   logger ERROR ("Failed to assign roles to "
                                   +:+ str_of_int (id member) +:+ ": "
                                   +:+ str_exc e)
               end)
      end
  end.

Definition preserve_roles (now : datetime) (member : Member) : M unit :=
  d ← read_db;
  match user_verification_data d !! id member with
  | None =>
      logger WARNING ("Cannot preserve roles for " +:+ str_of_int (id member)
                        +:+ " - no verification data")
  | Some ver_data =>
      let role_ids :=
        List.filter (fun r => negb (r =? default_role (guild member))%Z)
                    (roles member) in
      let ver_data :=
        UserVerificationData.mk
          (UserVerificationData.discord_id ver_data)
          (UserVerificationData.cas_login ver_data)
          (UserVerificationData.cas_real_name ver_data)
          (UserVerificationData.cas_email ver_data)
          (UserVerificationData.verified_at ver_data)
          (UserVerificationData.last_reverified_at ver_data)
          (UserVerificationData.reverification_required ver_data)
          (UserVerificationData.reverification_reason ver_data)
          (UserVerificationData.reverification_requested_at ver_data)
          (UserVerificationData.reverification_wave_id ver_data)
          (Some (PreservedRoles.mk (Some role_ids) (Some now)))
          (UserVerificationData.updated_at ver_data) in
      commit None (set_user_verification_data <[id member := ver_data]>);;
      logger INFO ("Preserved " +:+ str_len role_ids +:+ " roles for user "
                     +:+ str_of_int (id member))
  end.

(** [ver_data.preserved_roles = None] *)
Definition clear_preserved_roles (ver_data : UserVerificationData.t) :=
  UserVerificationData.mk
    (UserVerificationData.discord_id ver_data)
    (UserVerificationData.cas_login ver_data)
    (UserVerificationData.cas_real_name ver_data)
    (UserVerificationData.cas_email ver_data)
    (UserVerificationData.verified_at ver_data)
    (UserVerificationData.last_reverified_at ver_data)
    (UserVerificationData.reverification_required ver_data)
    (UserVerificationData.reverification_reason ver_data)
    (UserVerificationData.reverification_requested_at ver_data)
    (UserVerificationData.reverification_wave_id ver_data)
    None
    (UserVerificationData.updated_at ver_data).

(** [role for role_id in role_ids if guild.get_role(role_id)] *)
Definition resolve_roles (g : Guild) (role_ids : list Z) : list Z :=
  omap (get_role g) role_ids.

Definition restore_roles (answer : option Exception) (member : Member)
  : M unit :=
  d ← read_db;
  let ver_data := user_verification_data d !! id member in
  match ver_data with
  | Some ver_data' =>
      if PreservedRoles.truthy (UserVerificationData.preserved_roles ver_data')
      then
        let role_ids :=
          match UserVerificationData.preserved_roles ver_data' with
          | Some p => default [] (PreservedRoles.role_ids p)
          | None => []
          end in
        let roles_to_add := resolve_roles (guild member) role_ids in
        match roles_to_add with
        | [] => mret tt
        | _ =>
            try_except
              (add_roles answer member roles_to_add;;
               logger INFO ("Restored " +:+ str_len roles_to_add
                              +:+ " roles to " +:+ str_of_int (id member));;
               commit None
                 (set_user_verification_data
                    <[id member := clear_preserved_roles ver_data']>))
              (fun e =>
                 match e with
                 | Forbidden _ =>
                     logger ERROR ("Missing permissions to restore roles to "
                                     +:+ str_of_int (id member))
                 | _ =>
                     logger ERROR ("Failed to restore roles to "
                                     +:+ str_of_int (id member) +:+ ": "
                                     +:+ str_exc e)
                 end)
        end
      else
        logger DEBUG ("No preserved roles for " +:+ str_of_int (id member)
                        +:+ ", assigning default roles");;
        assign_verified_roles answer member
          (UserVerificationData.cas_login ver_data')
  | None =>
      logger DEBUG ("No preserved roles for " +:+ str_of_int (id member)
                      +:+ ", assigning default roles");;
      assign_verified_roles answer member ""
  end.

Definition require_reverification (now : datetime)
    (discord_id : Z) (reason : string) (wave_id : option Z) : M unit :=
  d ← read_db;
  match user_verification_data d !! discord_id with
  | None =>
      logger WARNING ("No verification data for user " +:+ str_of_int discord_id)
  | Some ver_data =>
      let ver_data :=
        UserVerificationData.mk
          (UserVerificationData.discord_id ver_data)
          (UserVerificationData.cas_login ver_data)
          (UserVerificationData.cas_real_name ver_data)
          (UserVerificationData.cas_email ver_data)
          (UserVerificationData.verified_at ver_data)
          (UserVerificationData.last_reverified_at ver_data)
          true
          (Some reason)
          (Some now)
          wave_id
          (UserVerificationData.preserved_roles ver_data)
          (UserVerificationData.updated_at ver_data) in
      commit None (set_user_verification_data <[discord_id := ver_data]>);;
      logger INFO ("User " +:+ str_of_int discord_id
                     +:+ " marked for re-verification: " +:+ reason)
  end.

End VerificationService.
End VerificationService.

(** ** Re-verification waves *)

(** Modelled from the spec: [createWave] of the wave scheduler (section
    4.6). The repository declares the tables [VerificationWave] and
    [VerificationWaveUser] and the settings [reverification_window_days]
    and [reverification_daily_batch_percent], and has no code that creates
    a wave. Following the spec's words: the holders of the target role are
    counted, and handed out in their order to per-day cohorts of
    [ceil(totalUsers * dailyBatchPercent / 100)] subjects, the first cohort
    today, the next the day after, and so on; a percentage or a window that
    is not positive is rejected; a wave without users is completed at once.
    The percentage is a rational number (the setting is a float; rounding
    is not modelled). The spec does not say what happens to the subjects
    that the window has no room for: the model keeps handing out days. *)
Module WaveScheduler.

Inductive Status := pending | active | completed.

Record Wave := mkWave {
  target_role : Z;
  start_date : Z;                 (* a day number *)
  end_date : Z;
  window_days : Z;
  daily_batch_percent : Q;
  total_users : Z;
  users_notified : Z;
  users_completed : Z;
  status : Status;
  cohorts : list (list Z)         (* cohort [k] is scheduled for [start_date + k] *)
}.

(** [ceil(totalUsers * dailyBatchPercent / 100)] *)
Definition cohort_size (total_users : Z) (daily_batch_percent : Q) : Z :=
  Qceiling (inject_Z total_users * daily_batch_percent / inject_Z 100).

(** Consecutive blocks of [size] subjects; [fuel] bounds the number of
    blocks, and the length of the list is always enough. *)
Fixpoint blocks (fuel size : nat) (subjects : list Z) : list (list Z) :=
  match fuel with
  | O => []
  | S fuel' =>
      match subjects with
      | [] => []
      | _ => take size subjects :: blocks fuel' size (drop size subjects)
      end
  end.

Definition createWave (holders : list Z) (today target_role window_days : Z)
    (daily_batch_percent : Q) : option Wave :=
  if Qle_bool daily_batch_percent 0 || (window_days <=? 0) then None
  else
    let total_users := Z.of_nat (length holders) in
    let size := Z.to_nat (cohort_size total_users daily_batch_percent) in
    Some (mkWave target_role today (today + window_days) window_days
            daily_batch_percent total_users 0 0
            (if total_users =? 0 then completed else pending)
            (blocks (length holders) size holders)).

(** The day cohort [k] of a wave is scheduled for. *)
Definition scheduled_for (w : Wave) (k : nat) : Z := start_date w + Z.of_nat k.

End WaveScheduler.

(** ** Concrete data for the examples

    [digest] stands in for SHA-256 where an example has to compute. *)

Module Scenario.

Definition digest (s : string) : string := "sha256(" +:+ s +:+ ")".

Definition config : Config :=
  mkConfig "https://sso.vsb.cz/login" "https://sso.vsb.cz/p3/serviceValidate"
           "https://bot.example.com/callback" "test_secret_key_32_chars_long_"
           15 123456789 987654321.

(** [<cas:authenticationFailure code="...">message</cas:authenticationFailure>]
    inside a [cas:serviceResponse]. *)
Definition failure_document (code message : string) : Element :=
  mkElement (ET.cas "serviceResponse") [] None
    [mkElement (ET.cas "authenticationFailure") [("code", code)]
               (Some message) []].

Definition invalid_ticket : Element :=
  failure_document "INVALID_TICKET" "  Ticket 'ST-12345' not recognized  ".

(** A success document for [jan.novak], affiliation [faculty]. *)
Definition jan_novak : Element :=
  mkElement (ET.cas "serviceResponse") [] None
    [mkElement (ET.cas "authenticationSuccess") [] None
       [mkElement (ET.cas "user") [] (Some "jan.novak") [];
        mkElement (ET.cas "attributes") [] None
          [mkElement (ET.cas "cn") [] (Some "Jan Novak") [];
           mkElement (ET.cas "mail") [] (Some "jan.novak@vsb.cz") [];
           mkElement (ET.cas "eduPersonAffiliation") [] (Some "faculty") []]]].

(** The row of the token ["tok"] issued to user 42 in guild 7. *)
Definition pending (expires_at : datetime) : VerificationState.t :=
  VerificationState.mk (CASService.state_hash digest config "tok" 42)
                       42 7 true expires_at None None.

Definition world_with (rows : list VerificationState.t) : World :=
  mkWorld (mkDatabase ∅ ∅ rows []) [] [].

(** What [validate_cas_ticket] extracts for [jan.novak]. *)
Definition jan_novak_data : CasData.t :=
  CasData.mk (Some "jan.novak") (Some "jan.novak")
             (Some (<["eduPersonAffiliation" := "faculty"]>
                      (<["mail" := "jan.novak@vsb.cz"]>
                         (<["cn" := "Jan Novak"]> ∅))))
             (Some "jan.novak@vsb.cz") (Some "") (Some "")
             (Some "Jan Novak") (Some []) (Some ["faculty"]).

(** Subject 42, verified at 100 and since asked to verify again, with the
    role 5 preserved. *)
Definition user_42 : User.t :=
  User.mk 42 (Some "jan.novak") 1 2 None (Some "Jan Novak") (Some ∅)
          (Some 100) false.

Definition profile_42 (preserved : option PreservedRoles.t)
  : UserVerificationData.t :=
  UserVerificationData.mk 42 "jan.novak" (Some "Jan Novak")
    (Some "jan.novak@vsb.cz") 100 100 true (Some "Annual check") (Some 500)
    None preserved 100.

Definition world_42 (preserved : option PreservedRoles.t) : World :=
  mkWorld (mkDatabase {[ 42 := user_42 ]} {[ 42 := profile_42 preserved ]} [] [])
          [] [].

(** A guild whose everyone role is 1 and that knows the roles 5, 10, 20, 30
    and the student and teacher roles of [config]. *)
Definition vsb : Guild := mkGuild 1 [1; 5; 10; 20; 30; 123456789; 987654321].

Definition member_42 (roles : list Z) : Member := mkMember 42 roles vsb.

End Scenario.

(** ** Readings used by the properties of the parser *)





(** ** [OAuthWebServer] ([bot/web/app.py])

    The pages are HTML templates around a few values; a page is modelled by
    its kind and those values. *)

Module OAuthWebServer.

Inductive Page :=
| ErrorPage (error_message : string)
| SuccessPage (display_name login : string) (linked_at : datetime).

(** [web.Response(text=page, status=status)] *)
Record HttpResponse := mkHttpResponse { status : Z; page : Page }.

(** [request.query.get("ticket")], [request.query.get("state")] and
    [request.remote]. *)
Record Request := mkRequest {
  ticket : option string;
  state : option string;
  remote : option string
}.

(** What the outside world answers during one request: the clock, the
    database and the provider for [CASService.handle_callback], the clocks
    of [save_verification_data], the guild cache of the bot
    ([bot.get_guild(guild_id)], then [guild.get_member(discord_id)]),
    Discord's answer to [add_roles], and the clock for the success page. *)
Record Env := mkEnv {
  now : datetime;
  faults : Faults;
  provider : Response;
  now_user : datetime;
  now_save : datetime;
  utcnow_default : datetime;
  get_guild : Z -> option (Z -> option Member);
  add_roles_answer : option Exception;
  utcnow_page : datetime
}.

(** Truth value of an optional string: not [None] and not empty. *)
Definition given (x : option string) : bool :=
  match x with Some s => PyStr.truthy s | None => false end.

Section OAuthWebServer.
Variable sha256 : string -> string.
Variable config : Config.

(** [request_count] is the counter of the server object before the request;
    the handler returns it incremented, with the response. *)
Definition handle_callback (env : Env) (request_count : Z) (request : Request)
  : M (Z * HttpResponse) :=
  let request_count := request_count + 1 in
  let client_ip := remote request in
  logger INFO ("OAuth callback received from " +:+ CASService.str_opt client_ip);;
  if negb (given (ticket request)) then
    logger WARNING "Callback missing ticket parameter";;
    mret (request_count,
          mkHttpResponse 400 (ErrorPage "Missing authentication ticket"))
  else if negb (given (state request)) then
    logger WARNING "Callback missing state parameter";;
    mret (request_count,
          mkHttpResponse 400 (ErrorPage "Invalid authentication state"))
  else
    try_except
      (result ← CASService.handle_callback sha256 config (now env) (faults env)
                  (provider env) (default "" (ticket request))
                  (default "" (state request)) client_ip;
       match result with
       | Failure error =>
           logger ERROR ("Callback processing failed: " +:+ error);;
           mret (request_count, mkHttpResponse 400 (ErrorPage error))
       | Success discord_id guild_id cas_data is_reverification =>
           VerificationService.save_verification_data (now_user env)
             (now_save env) (utcnow_default env) discord_id cas_data
             is_reverification;;
           let member :=
             match get_guild env guild_id with
             | Some guild => guild discord_id
             | None => None
             end in
           match member with
           | Some member =>
               if is_reverification
               then VerificationService.restore_roles config
                      (add_roles_answer env) member
               else VerificationService.assign_verified_roles config
                      (add_roles_answer env) member
                      (default "" (CasData.login cas_data))
           | None => mret tt
           end;;
           logger INFO ("Successful verification for Discord user "
                          +:+ PyStr.str_of_int discord_id);;
           mret (request_count,
                 mkHttpResponse 200
                   (SuccessPage (default "User" (CasData.cn cas_data))
                                (default "unknown" (CasData.login cas_data))
                                (utcnow_page env)))
       end)
      (fun e =>
         logger ERROR ("Callback processing error: " +:+ str_exc e);;
         mret (request_count,
               mkHttpResponse 500
                 (ErrorPage "Internal server error during authentication"))).

End OAuthWebServer.
End OAuthWebServer.

(** ** Concrete data for the flows *)

Module Flow.

(** The row of the token ["tok"] issued to user 42 in guild 7, for an
    initial verification or for a re-verification. *)
Definition token (is_initial : bool) : VerificationState.t :=
  VerificationState.mk
    (CASService.state_hash Scenario.digest Scenario.config "tok" 42)
    42 7 is_initial 2000 None None.



(** The bot sees guild 7 with member 42, who holds only the everyone role. *)
Definition guilds (guild_id : Z) : option (Z -> option Member) :=
  if guild_id =? 7
  then Some (fun discord_id =>
               if discord_id =? 42 then Some (Scenario.member_42 [1]) else None)
  else None.

Definition env : OAuthWebServer.Env :=
  OAuthWebServer.mkEnv 1000 no_faults (Document Scenario.jan_novak)
    1000 1000 1000 guilds None 1000.

Definition request : OAuthWebServer.Request :=
  OAuthWebServer.mkRequest (Some "ST-1") (Some "tok") (Some "10.0.0.1").

End Flow.

(** ** The cogs ([bot/cogs/verification_admin.py], [bot/cogs/verification.py])

    Besides the services, a command removes roles and sends messages. The
    texts of the messages are templates; a message is modelled by its kind
    and the values the template shows. *)

(** The role settings of [Config] that the commands read. *)
Record StaffRoles := mkStaffRoles {
  admin_role_id : option Z;
  moderator_role_id : option Z;
  host_role_id : option Z;
  absolvent_role_id : option Z
}.

(** What is sent on the interaction. *)
Inductive Reply :=
| AdminOnly
| MarkedForReverification (user : Z) (dm_sent : bool)
| AlreadyVerified
| ReverificationRequired (reason : option string)
| OpenSSO (auth_url : string).

(** The embed of a direct message. *)
Inductive Embed :=
| ReverificationByAdmin (reason auth_url : string)
| VerificationLink (is_reverification : bool) (auth_url : string).

(** The world of a command: the world of the services, the
    [member.remove_roles] calls that Discord carried out, the replies on the
    interaction and the direct messages delivered. *)
Record Gateway := mkGateway {
  world : World;
  roles_removed : list (Z * list Z);
  replies : list Reply;
  direct_messages : list (Z * Embed)
}.

Definition G (A : Type) : Type := Gateway -> Outcome A * Gateway.

Definition G_ret_ {A} (a : A) : G A := fun g => (Returns a, g).

Definition G_raise {A} (e : Exception) : G A := fun g => (Raises e, g).

Definition G_bind_ {A B} (m : G A) (k : A -> G B) : G B :=
  fun g =>
    match m g with
    | (Returns a, g') => k a g'
    | (Raises e, g') => (Raises e, g')
    end.

Definition G_try_except {A} (m : G A) (h : Exception -> G A) : G A :=
  fun g =>
    match m g with
    | (Returns a, g') => (Returns a, g')
    | (Raises e, g') => h e g'
    end.

#[global] Instance G_ret : MRet G := @G_ret_.
#[global] Instance G_bind : MBind G := fun A B k m => G_bind_ m k.

(** A call of a service inside a command. *)
Definition lift {A} (m : M A) : G A :=
  fun g =>
    match m (world g) with
    | (o, w') => (o, mkGateway w' (roles_removed g) (replies g) (direct_messages g))
    end.

(** [await member.remove_roles] on the roles given. *)
Definition remove_roles (answer : option Exception) (member : Member)
    (roles_to_remove : list Z) : G unit :=
  match answer with
  | Some e => G_raise e
  | None =>
      fun g => (Returns tt,
                mkGateway (world g)
                          (roles_removed g ++ [(id member, roles_to_remove)])
                          (replies g) (direct_messages g))
  end.

(** [await user.send(embed=embed)] *)
Definition send (answer : option Exception) (user : Z) (embed : Embed) : G unit :=
  match answer with
  | Some e => G_raise e
  | None =>
      fun g => (Returns tt,
                mkGateway (world g) (roles_removed g) (replies g)
                          (direct_messages g ++ [(user, embed)]))
  end.

(** [interaction.response.send_message] and [interaction.followup.send]. *)
Definition reply (r : Reply) : G unit :=
  fun g => (Returns tt,
            mkGateway (world g) (roles_removed g) (replies g ++ [r])
                      (direct_messages g)).

(** [role_id in {a, b, ...}] for settings that may be unset. *)
Definition among (settings : list (option Z)) (role_id : Z) : bool :=
  existsb (fun s => match s with Some r => r =? role_id | None => false end)
          settings.

(** [any(role.id in admin_roles for role in user.roles if role.id)] *)
Definition is_admin (staff : StaffRoles) (user : Member) : bool :=
  existsb (fun role_id =>
             negb (role_id =? 0)
             && among [admin_role_id staff; moderator_role_id staff] role_id)
          (roles user).

(** The interaction of a command: who invoked it, in which guild. *)
Record Interaction := mkInteraction {
  invoker : Member;             (* [interaction.user] *)
  interaction_guild : Guild;    (* [interaction.guild] *)
  interaction_guild_id : Z      (* [interaction.guild_id] *)
}.

Module VerificationAdminCog.

(** The clocks, the random token and Discord's answers of one command. *)
Record Env := mkEnv {
  now_preserve : datetime;
  now_require : datetime;
  remove_answer : option Exception;
  now_issue : datetime;
  token : string;
  dm_answer : option Exception
}.

Section VerificationAdminCog.
Variable sha256 : string -> string.
Variable urlencode : list (string * string) -> string.
Variable config : Config.
Variable staff : StaffRoles.

(** The roles [reverify_user] takes away: all but the everyone role and the
    protected ones. *)
Definition roles_to_remove (interaction : Interaction) (user : Member) : list Z :=
  List.filter
    (fun r =>
       negb (r =? default_role (interaction_guild interaction))
       && negb (among [admin_role_id staff; moderator_role_id staff;
                       host_role_id staff; absolvent_role_id staff] r))
    (roles user).

Definition reverify_user (env : Env) (interaction : Interaction)
    (user : Member) (reason : string) : G unit :=
  if negb (is_admin staff (invoker interaction)) then reply AdminOnly
  else
    lift (VerificationService.preserve_roles (now_preserve env) user);;
    lift (VerificationService.require_reverification (now_require env)
            (id user) reason None);;
    match roles_to_remove interaction user with
    | [] => mret tt
    | to_remove => remove_roles (remove_answer env) user to_remove
    end;;
    '(auth_url, _) ←
      lift (CASService.generate_verification_url sha256 urlencode config
              (now_issue env) (token env) (id user)
              (interaction_guild_id interaction) true None None);
    dm_sent ← G_try_except
                (send (dm_answer env) (id user)
                      (ReverificationByAdmin reason auth_url);;
                 mret true)
                (fun e => match e with
                          | Forbidden _ => mret false
                          | _ => G_raise e
                          end);
    reply (MarkedForReverification (id user) dm_sent);;
    lift (logger INFO ("Admin " +:+ PyStr.str_of_int (id (invoker interaction))
                         +:+ " triggered re-verification for user "
                         +:+ PyStr.str_of_int (id user) +:+ ": " +:+ reason)).

End VerificationAdminCog.
End VerificationAdminCog.

Module VerificationCog.

(** The clock, the random token and Discord's answer of one button click. *)
Record Env := mkEnv {
  now_issue : datetime;
  token : string;
  dm_answer : option Exception
}.

Section VerificationCog.
Variable sha256 : string -> string.
Variable urlencode : list (string * string) -> string.
Variable config : Config.

Definition _send_verification_dm (answer : option Exception) (user : Z)
    (auth_url : string) (is_reverification : bool) : G unit :=
  G_try_except
    (send answer user (VerificationLink is_reverification auth_url);;
     lift (logger DEBUG ("Sent verification DM to user " +:+ PyStr.str_of_int user)))
    (fun e => match e with
              | Forbidden _ =>
                  lift (logger WARNING ("Cannot send DM to user "
                                          +:+ PyStr.str_of_int user
                                          +:+ " - DMs disabled"))
              | _ => G_raise e
              end).

(** [username] is [interaction.user.name]. *)
Definition handle_verification_button (env : Env) (interaction : Interaction)
    (username : string) : G unit :=
  let user_id := id (invoker interaction) in
  verified ← lift (VerificationService.is_verified user_id);
  if (verified : bool) then reply AlreadyVerified
  else
    '(requires, reason) ←
      lift (VerificationService.requires_reverification user_id);
    if (requires : bool) then
      reply (ReverificationRequired reason);;
      '(auth_url, _) ←
        lift (CASService.generate_verification_url sha256 urlencode
                config (now_issue env) (token env) user_id
                (interaction_guild_id interaction) true None None);
      _send_verification_dm (dm_answer env) user_id auth_url true
    else
      '(auth_url, _) ←
        lift (CASService.generate_verification_url sha256 urlencode
                config (now_issue env) (token env) user_id
                (interaction_guild_id interaction) false None None);
      reply (OpenSSO auth_url);;
      lift (logger INFO ("Verification started for user "
                           +:+ PyStr.str_of_int user_id
                           +:+ " (" +:+ username +:+ ")")).

End VerificationCog.
End VerificationCog.

(** ** [UserEventsCog] ([bot/cogs/user_events.py])

    The member events write to [users] and to two tables of their own,
    [user_metrics] and [user_status_history]. Both reference
    [users.discord_id]; their counters are [Integer] columns. The
    autoincrement key and the [created_at] default of a history row are left
    to the database, as for the audit rows. *)

Module UserMetrics.
Record t := mk {
  discord_id : Z;
  join_count : Z;
  bans : Z;
  kicks : Z
}.
End UserMetrics.

Module UserStatusHistory.
Record t := mk {
  discord_id : Z;
  guild_id : Z;
  event_type : string;
  roles_at_event : option (list Z);    (* [{"role_ids": [...]}] *)
  reason : option string;
  moderator_id : option Z
}.
End UserStatusHistory.

Record Community := mkCommunity {
  base : World;
  user_metrics : gmap Z UserMetrics.t;
  user_status_history : list UserStatusHistory.t
}.

(** The answer of [guild.fetch_ban(user)]. *)
Inductive BanEntry :=
| BanReason (reason : option string)   (* [ban_entry.reason] *)
| BanNotFound                          (* [discord.NotFound] *)
| BanRefused (e : Exception).

Module UserEventsCog.

(** The largest value of an [Integer] column. *)
Definition int4_max : Z := 2147483647.

Definition int4 (x : Z) : option Exception :=
  if x <=? int4_max then None
  else Some (DatabaseError "integer out of range").

(** [session.add(user)]: [users.login] is [unique]. *)
Definition insert_user (u : User.t) (d : Database) : option Exception :=
  match User.login u with
  | None => None
  | Some login =>
      if existsb (fun kv => bool_decide (User.login (snd kv) = Some login))
                 (map_to_list (users d))
      then Some (IntegrityError "duplicate key: users.login")
      else None
  end.

(** [session.add(history)]: the foreign key [discord_id] names a row of
    [users]. *)
Definition insert_history (h : UserStatusHistory.t) (users : gmap Z User.t)
  : option Exception :=
  if present (users !! UserStatusHistory.discord_id h) then None
  else Some (IntegrityError "foreign key: user_status_history.discord_id").

Definition first_fault (faults : list (option Exception)) : option Exception :=
  List.fold_right (fun f rest => match f with Some e => Some e | None => rest end)
                  None faults.

Definition logged (c : Community) (l : Level) (msg : string) : World :=
  mkWorld (db (base c)) (log (base c) ++ [mkLog l msg]) (roles_added (base c)).

Section UserEventsCog.
Variable config_guild_id : Z.     (* [self.config.guild_id] *)

(** [guild_id] is [member.guild.id], [name] is [member.name], [bot] is
    [member.bot]. *)
Definition on_member_join (guild_id : Z) (member : Member) (name : string)
    (bot : bool) (c : Community) : Outcome unit * Community :=
  if negb (guild_id =? config_guild_id) then (Returns tt, c)
  else
    let d := db (base c) in
    let new_user :=
      User.mk (id member)
              (Some ("discord_" +:+ PyStr.str_of_int (id member)))
              0 0 None None None None bot in
    let '(user_fault, users') :=
      match users d !! id member with
      | Some _ => (None, users d)
      | None => (insert_user new_user d, <[id member := new_user]> (users d))
      end in
    let metrics :=
      match user_metrics c !! id member with
      | None => UserMetrics.mk (id member) 1 0 0
      | Some m =>
          UserMetrics.mk (UserMetrics.discord_id m) (UserMetrics.join_count m + 1)
                         (UserMetrics.bans m) (UserMetrics.kicks m)
      end in
    let history :=
      UserStatusHistory.mk (id member) guild_id "join" None None None in
    match first_fault [user_fault; int4 (UserMetrics.join_count metrics);
                       insert_history history users'] with
    | Some e => (Raises e, c)
    | None =>
        let c' :=
          mkCommunity
            (mkWorld (set_users (fun _ => users') d) (log (base c))
                     (roles_added (base c)))
            (<[id member := metrics]> (user_metrics c))
            (user_status_history c ++ [history]) in
        (Returns tt,
         mkCommunity
           (logged c' INFO ("User " +:+ PyStr.str_of_int (id member) +:+ " ("
                            +:+ name +:+ ") joined guild "
                            +:+ PyStr.str_of_int guild_id))
           (user_metrics c') (user_status_history c'))
    end.

Definition on_member_remove (guild_id : Z) (member : Member) (c : Community)
  : Outcome unit * Community :=
  if negb (guild_id =? config_guild_id) then (Returns tt, c)
  else
    let role_ids :=
      List.filter (fun r => negb (r =? default_role (guild member)))
                  (roles member) in
    let history :=
      UserStatusHistory.mk (id member) guild_id "leave" (Some role_ids)
                           None None in
    match insert_history history (users (db (base c))) with
    | Some e => (Raises e, c)
    | None =>
        (Returns tt,
         mkCommunity
           (logged c INFO ("User " +:+ PyStr.str_of_int (id member)
                           +:+ " left guild " +:+ PyStr.str_of_int guild_id))
           (user_metrics c) (user_status_history c ++ [history]))
    end.

(** [guild_id] is [guild.id], [user] is [user.id]. *)
Definition on_member_ban (entry : BanEntry) (guild_id user : Z) (c : Community)
  : Outcome unit * Community :=
  if negb (guild_id =? config_guild_id) then (Returns tt, c)
  else
    let fetched : Outcome (option string) * Community :=
      match entry with
      | BanReason reason => (Returns reason, c)
      | BanNotFound => (Returns None, c)
      | BanRefused (Forbidden _) =>
          (Returns None,
           mkCommunity (logged c WARNING "Missing permission to fetch ban entry")
                       (user_metrics c) (user_status_history c))
      | BanRefused (HTTPException msg) =>
          (Returns None,
           mkCommunity (logged c DEBUG ("Failed to fetch ban entry: " +:+ msg))
                       (user_metrics c) (user_status_history c))
      | BanRefused e => (Raises e, c)
      end in
    match fetched with
    | (Raises e, c1) => (Raises e, c1)
    | (Returns reason, c1) =>
        let history :=
          UserStatusHistory.mk user guild_id "ban" None reason None in
        let metrics := user_metrics c1 !! user in
        let bans' :=
          match metrics with
          | Some m => UserMetrics.bans m + 1
          | None => 0
          end in
        match first_fault [insert_history history (users (db (base c1)));
                           int4 bans'] with
        | Some e => (Raises e, c1)
        | None =>
            let c2 :=
              mkCommunity (base c1)
                (match metrics with
                 | Some m =>
                     <[user := UserMetrics.mk (UserMetrics.discord_id m)
                                 (UserMetrics.join_count m) bans'
                                 (UserMetrics.kicks m)]> (user_metrics c1)
                 | None => user_metrics c1
                 end)
                (user_status_history c1 ++ [history]) in
            (Returns tt,
             mkCommunity
               (logged c2 WARNING ("User " +:+ PyStr.str_of_int user
                                   +:+ " banned from guild "
                                   +:+ PyStr.str_of_int guild_id +:+ ": "
                                   +:+ CASService.str_opt reason))
               (user_metrics c2) (user_status_history c2))
        end
    end.

Definition on_member_unban (guild_id user : Z) (c : Community)
  : Outcome unit * Community :=
  if negb (guild_id =? config_guild_id) then (Returns tt, c)
  else
    let history :=
      UserStatusHistory.mk user guild_id "unban" None None None in
    match insert_history history (users (db (base c))) with
    | Some e => (Raises e, c)
    | None =>
        (Returns tt,
         mkCommunity
           (logged c INFO ("User " +:+ PyStr.str_of_int user
                           +:+ " unbanned from guild "
                           +:+ PyStr.str_of_int guild_id))
           (user_metrics c) (user_status_history c ++ [history]))
    end.

End UserEventsCog.
End UserEventsCog.

(** * Properties *)

(** ** Python strings *)

Section PyStrFacts.
Import PyStr.



End PyStrFacts.

(** ** The classifier *)

Section ClassifierFacts.
Import PyStr Classifier.





End ClassifierFacts.


(** ** Running a coroutine *)

Ltac mrun :=
  repeat (progress
            (unfold execute, commit, logger, read_db, mbind, M_bind, bind,
               mret, M_ret, try_except, ret, raise in *;
             cbn beta iota zeta in *));
  cbn [db log roles_added] in *.

Section CASFacts.
Variable sha256 : string -> string.
Variable config : Config.

Lemma parse_response_frame (response : Response) (w : World) :
  db (snd (CASService.parse_response response w)) = db w /\
  roles_added (snd (CASService.parse_response response w)) = roles_added w.
Proof.
  unfold CASService.parse_response.
  destruct response as [e|msg|root]; mrun; auto.
  destruct (ET.find _ root); mrun; auto.
Qed.

Lemma validate_cas_ticket_returns (response : Response) (ticket state : string)
    (w : World) :
  exists r lines,
    CASService.validate_cas_ticket config response ticket state w
    = (Returns r, mkWorld (db w) (log w ++ lines) (roles_added w)).
Proof.
  unfold CASService.validate_cas_ticket, CASService.parse_response.
  destruct response as [e|msg|root]; mrun.
  - destruct e; cbn; rewrite <- app_assoc; eauto.
  - cbn; rewrite <- app_assoc; eauto.
  - destruct (ET.find _ root); mrun; cbn; rewrite <- app_assoc; eauto.
Qed.

Lemma handle_callback_unmatched now faults response ticket state ip w :
  select_states_fault faults = None ->
  List.find (CASService.hash_matches sha256 config state)
            (CASService.live now (verification_states (db w))) = None ->
  CASService.handle_callback sha256 config now faults response ticket state ip w
  = (Returns (Failure "Invalid or expired verification state"),
     mkWorld (db w)
       (log w ++ [mkLog WARNING ("Invalid or expired state: "
                                   +:+ PyStr.slice_to 8 state +:+ "...")])
       (roles_added w)).
Proof.
  intros Hsel Hfind. unfold CASService.handle_callback in *.
  rewrite Hsel. mrun. now rewrite Hfind.
Qed.

(** Once the row is found and its deletion committed, nothing that follows
    brings it back or touches another table than the audit trail. *)
Lemma handle_callback_matched now faults response ticket state ip w m :
  select_states_fault faults = None ->
  List.find (CASService.hash_matches sha256 config state)
            (CASService.live now (verification_states (db w))) = Some m ->
  delete_state_fault faults = None ->
  let w' := snd (CASService.handle_callback sha256 config now faults response
                   ticket state ip w) in
  verification_states (db w')
  = CASService.delete_state m (verification_states (db w)).
Proof.
  intros Hsel Hfind Hdel. unfold CASService.handle_callback in *.
  rewrite Hsel. mrun. rewrite Hfind, Hdel. mrun.
  destruct (validate_cas_ticket_returns response ticket state
              (mkWorld (set_verification_states (CASService.delete_state m) (db w))
                       (log w) (roles_added w))) as (r & lines & ->).
  destruct r as [c|]; [|reflexivity].
  destruct (CasData.truthy c); [|reflexivity]. cbn.
  unfold CASService._log_verification_audit. mrun.
  destruct (audit_fault faults); mrun; [|reflexivity].
  destruct (failure_audit_fault faults); reflexivity.
Qed.

Lemma handle_callback_validation_failed now faults response ticket state ip w m :
  select_states_fault faults = None ->
  List.find (CASService.hash_matches sha256 config state)
            (CASService.live now (verification_states (db w))) = Some m ->
  delete_state_fault faults = None ->
  (forall w0, fst (CASService.validate_cas_ticket config response ticket state w0)
              = Returns None) ->
  let r := CASService.handle_callback sha256 config now faults response
             ticket state ip w in
  fst r = Returns (Failure "Failed to validate CAS ticket") /\
  verification_audit (db (snd r)) = verification_audit (db w).
Proof.
  intros Hsel Hfind Hdel Hval. unfold CASService.handle_callback in *.
  rewrite Hsel. mrun. rewrite Hfind, Hdel. mrun.
  match goal with
  | |- context [CASService.validate_cas_ticket config response ticket state ?w0] =>
      specialize (Hval w0);
      destruct (validate_cas_ticket_returns response ticket state w0)
        as (r & lines & Hr)
  end.
  rewrite Hr in *. cbn in Hval. injection Hval as ->. auto.
Qed.

Lemma handle_callback_success_inv now faults response ticket state ip w
    d g c b w1 :
  CASService.handle_callback sha256 config now faults response ticket state ip w
  = (Returns (Success d g c b), w1) ->
  select_states_fault faults = None /\
  delete_state_fault faults = None /\
  exists m,
    List.find (CASService.hash_matches sha256 config state)
              (CASService.live now (verification_states (db w))) = Some m /\
    d = VerificationState.discord_id m /\
    verification_states (db w1)
    = CASService.delete_state m (verification_states (db w)).
Proof.
  unfold CASService.handle_callback.
  destruct (select_states_fault faults) as [e|]; mrun.
  { destruct (failure_audit_fault faults); cbn; discriminate. }
  destruct (List.find _ _) as [m|] eqn:Hfind; mrun; [|discriminate].
  destruct (delete_state_fault faults) as [e|]; mrun.
  { destruct (failure_audit_fault faults); cbn; discriminate. }
  match goal with
  | |- context [CASService.validate_cas_ticket config response ticket state ?w0] =>
      destruct (validate_cas_ticket_returns response ticket state w0)
        as (r & lines & ->)
  end.
  destruct r as [c'|]; [|discriminate].
  destruct (CasData.truthy c'); cbn; [|discriminate].
  unfold CASService._log_verification_audit. mrun.
  destruct (audit_fault faults); mrun.
  { destruct (failure_audit_fault faults); cbn; discriminate. }
  intros [= <- <- <- <- <-]. cbn. eauto 10.
Qed.

(** [handle_callback] never writes [users] or [user_verification_data]. *)
Lemma handle_callback_frame now faults response ticket state ip w :
  let w' := snd (CASService.handle_callback sha256 config now faults response
                   ticket state ip w) in
  users (db w') = users (db w) /\
  user_verification_data (db w') = user_verification_data (db w) /\
  roles_added w' = roles_added w.
Proof.
  unfold CASService.handle_callback.
  destruct (select_states_fault faults) as [e|]; mrun.
  { destruct (failure_audit_fault faults); cbn; auto. }
  destruct (List.find _ _) as [m|] eqn:Hfind; mrun; [|auto].
  destruct (delete_state_fault faults) as [e|]; mrun.
  { destruct (failure_audit_fault faults); cbn; auto. }
  match goal with
  | |- context [CASService.validate_cas_ticket config response ticket state ?w0] =>
      destruct (validate_cas_ticket_returns response ticket state w0)
        as (r & lines & ->)
  end.
  destruct r as [c'|]; [|cbn; auto].
  destruct (CasData.truthy c'); cbn; [|auto].
  unfold CASService._log_verification_audit. mrun.
  destruct (audit_fault faults); mrun; [|cbn; auto].
  destruct (failure_audit_fault faults); cbn; auto.
Qed.

Lemma find_absent {A} (f : A -> bool) (l : list A) :
  (forall x, In x l -> f x = false) -> List.find f l = None.
Proof.
  induction l as [|a l IH]; simpl; intros H; [reflexivity|].
  rewrite (H a) by auto. apply IH. auto.
Qed.

Lemma live_In now rows vs :
  In vs (CASService.live now rows) <->
  In vs rows /\ (now < VerificationState.expires_at vs)%Z.
Proof.
  unfold CASService.live. rewrite filter_In, Z.ltb_lt. reflexivity.
Qed.

Lemma delete_state_In m rows vs :
  In vs (CASService.delete_state m rows) <->
  In vs rows /\ VerificationState.state vs <> VerificationState.state m.
Proof.
  unfold CASService.delete_state. rewrite filter_In, negb_true_iff.
  destruct (String.eqb_spec (VerificationState.state vs) (VerificationState.state m));
    intuition congruence.
Qed.

(** After the deletion of the row it opened, a token issued once opens none. *)
Lemma consumed_token_opens_nothing now state rows m :
  CASService.issued_once sha256 config state rows ->
  List.find (CASService.hash_matches sha256 config state)
            (CASService.live now rows) = Some m ->
  forall vs, In vs (CASService.delete_state m rows) ->
             CASService.hash_matches sha256 config state vs = false.
Proof.
  intros Honce Hfind vs Hin.
  apply List.find_some in Hfind as [Hm Hmatch].
  apply live_In in Hm as [Hm _].
  apply delete_state_In in Hin as [Hin Hne].
  destruct (CASService.hash_matches sha256 config state vs) eqn:E; [|reflexivity].
  exfalso. apply Hne. now apply Honce.
Qed.

Lemma validate_cas_ticket_rejected response ticket state w :
  CASService.rejected response ->
  fst (CASService.validate_cas_ticket config response ticket state w)
  = Returns None.
Proof.
  unfold CASService.rejected, CASService.validate_cas_ticket,
    CASService.parse_response.
  destruct response as [e|msg|root]; mrun.
  - intros _. now destruct e.
  - reflexivity.
  - now intros ->.
Qed.

End CASFacts.

(** C5. A redemption at or after the expiry of the token (every row that
    the raw token opens has [expires_at <= now]) is refused with "Invalid or
    expired verification state" and leaves the tables as they were, also
    when the token was never redeemed before; a token that opens no row at
    all gets the very same answer. The [select] itself is assumed to be
    answered by the database. *)
Theorem expired_token_is_refused
    (sha256 : string -> string) (config : Config)
    (now : datetime) (faults : Faults) (response : Response)
    (ticket state : string) (ip : option string) (w : World) :
  select_states_fault faults = None ->
  (forall vs, In vs (verification_states (db w)) ->
     CASService.hash_matches sha256 config state vs = true ->
     (VerificationState.expires_at vs <= now)%Z) ->
  let r := CASService.handle_callback sha256 config now faults response
             ticket state ip w in
  fst r = Returns (Failure "Invalid or expired verification state") /\
  db (snd r) = db w /\
  forall w0 : World,
    (forall vs, In vs (verification_states (db w0)) ->
       CASService.hash_matches sha256 config state vs = false) ->
    fst (CASService.handle_callback sha256 config now faults response
           ticket state ip w0) = fst r.
Proof.
  intros Hsel Hexp r. subst r.
  rewrite (handle_callback_unmatched sha256 config now faults response
             ticket state ip w Hsel).
  - cbn. repeat split; auto. intros w0 Hnone.
    rewrite (handle_callback_unmatched sha256 config now faults response
               ticket state ip w0 Hsel); [reflexivity|].
    apply find_absent. intros vs Hin. apply live_In in Hin as [Hin _]. auto.
  - apply find_absent. intros vs Hin. apply live_In in Hin as [Hin Hlt].
    destruct (CASService.hash_matches sha256 config state vs) eqn:E; auto.
    specialize (Hexp vs Hin E). lia.
Qed.

(** C4. A token issued once is redeemed at most once. (a) When a callback
    finds the row of the token and the deletion is committed, no row that
    the token opens is left afterwards, whatever the provider then answers
    and whatever happens to the audit trail, and every later callback with
    the same raw token is refused: never [Success], and "Invalid or expired
    verification state" whenever its [select] is answered. (b) In
    particular a callback that returned [Success] is followed by no second
    [Success] for the same raw token. *)
Theorem token_redeemed_at_most_once
    (sha256 : string -> string) (config : Config) (state : string) (w : World) :
  CASService.issued_once sha256 config state (verification_states (db w)) ->
  (forall now1 faults1 response1 ticket1 ip1 m,
     select_states_fault faults1 = None ->
     delete_state_fault faults1 = None ->
     List.find (CASService.hash_matches sha256 config state)
               (CASService.live now1 (verification_states (db w))) = Some m ->
     let w1 := snd (CASService.handle_callback sha256 config now1 faults1
                      response1 ticket1 state ip1 w) in
     (forall vs, In vs (verification_states (db w1)) ->
        CASService.hash_matches sha256 config state vs = false) /\
     forall now2 faults2 response2 ticket2 ip2,
       let r2 := fst (CASService.handle_callback sha256 config now2 faults2
                        response2 ticket2 state ip2 w1) in
       (forall d g c b, r2 <> Returns (Success d g c b)) /\
       (select_states_fault faults2 = None ->
        r2 = Returns (Failure "Invalid or expired verification state"))) /\
  (forall now1 faults1 response1 ticket1 ip1 d g c b w1,
     CASService.handle_callback sha256 config now1 faults1 response1
       ticket1 state ip1 w = (Returns (Success d g c b), w1) ->
     forall now2 faults2 response2 ticket2 ip2,
       let r2 := fst (CASService.handle_callback sha256 config now2 faults2
                        response2 ticket2 state ip2 w1) in
       (forall d' g' c' b', r2 <> Returns (Success d' g' c' b')) /\
       (select_states_fault faults2 = None ->
        r2 = Returns (Failure "Invalid or expired verification state"))).
Proof.
  intros Honce.
  assert (Hsecond : forall w1 : World,
            (forall vs, In vs (verification_states (db w1)) ->
               CASService.hash_matches sha256 config state vs = false) ->
            forall now2 faults2 response2 ticket2 ip2,
              let r2 := fst (CASService.handle_callback sha256 config now2 faults2
                               response2 ticket2 state ip2 w1) in
              (forall d g c b, r2 <> Returns (Success d g c b)) /\
              (select_states_fault faults2 = None ->
               r2 = Returns (Failure "Invalid or expired verification state"))).
  { intros w1 Hnone now2 faults2 response2 ticket2 ip2 r2. subst r2.
    assert (Hfind : List.find (CASService.hash_matches sha256 config state)
                      (CASService.live now2 (verification_states (db w1))) = None).
    { apply find_absent. intros vs Hin. apply live_In in Hin as [Hin _]. auto. }
    split.
    - intros d g c b Heq.
      destruct (CASService.handle_callback sha256 config now2 faults2 response2
                  ticket2 state ip2 w1) as [o w2] eqn:Hrun.
      cbn in Heq. subst o.
      apply handle_callback_success_inv in Hrun as (_ & _ & m & Hm & _).
      congruence.
    - intros Hsel.
      now rewrite (handle_callback_unmatched sha256 config now2 faults2 response2
                     ticket2 state ip2 w1 Hsel Hfind). }
  split.
  - intros now1 faults1 response1 ticket1 ip1 m Hsel Hdel Hfind w1.
    assert (Hnone : forall vs, In vs (verification_states (db w1)) ->
              CASService.hash_matches sha256 config state vs = false).
    { subst w1.
      rewrite (handle_callback_matched sha256 config now1 faults1 response1
                 ticket1 state ip1 w m Hsel Hfind Hdel).
      now apply (consumed_token_opens_nothing sha256 config now1). }
    split; [exact Hnone|]. now apply Hsecond.
  - intros now1 faults1 response1 ticket1 ip1 d g c b w1 Hrun.
    apply handle_callback_success_inv in Hrun as (_ & _ & m & Hfind & _ & Hrows).
    apply Hsecond. rewrite Hrows.
    now apply (consumed_token_opens_nothing sha256 config now1).
Qed.

(** C1. The validation-failed path of [handle_callback] writes no audit
    record: when the token opens a live row, the deletion is committed and
    the provider's answer is not a success document (an
    [authenticationFailure], an unreachable provider, a body that is not
    XML), the callback answers "Failed to validate CAS ticket", the audit
    trail is what it was, the token is spent, and no profile is created or
    changed. *)
Theorem failed_validation_leaves_no_audit_record
    (sha256 : string -> string) (config : Config)
    (now : datetime) (faults : Faults) (response : Response)
    (ticket state : string) (ip : option string) (w : World)
    (m : VerificationState.t) :
  select_states_fault faults = None ->
  List.find (CASService.hash_matches sha256 config state)
            (CASService.live now (verification_states (db w))) = Some m ->
  delete_state_fault faults = None ->
  CASService.rejected response ->
  let r := CASService.handle_callback sha256 config now faults response
             ticket state ip w in
  fst r = Returns (Failure "Failed to validate CAS ticket") /\
  verification_audit (db (snd r)) = verification_audit (db w) /\
  verification_states (db (snd r))
  = CASService.delete_state m (verification_states (db w)) /\
  user_verification_data (db (snd r)) = user_verification_data (db w).
Proof.
  intros Hsel Hfind Hdel Hrej r. subst r.
  destruct (handle_callback_validation_failed sha256 config now faults response
              ticket state ip w m Hsel Hfind Hdel) as [Hres Haudit].
  { intros w0. now apply validate_cas_ticket_rejected. }
  repeat split; auto.
  - now apply handle_callback_matched.
  - apply handle_callback_frame.
Qed.

(** The failing input of C1: the token ["tok"] is pending, the provider
    answers [authenticationFailure code="INVALID_TICKET"]; the audit trail
    stays empty. *)
Lemma failed_validation_leaves_no_audit_record_witness :
  let w := Scenario.world_with [Scenario.pending 2000] in
  let r := CASService.handle_callback Scenario.digest Scenario.config 1000
             no_faults (Document Scenario.invalid_ticket)
             "ST-12345" "tok" None w in
  fst r = Returns (Failure "Failed to validate CAS ticket") /\
  verification_audit (db (snd r)) = [] /\
  verification_states (db (snd r)) = [] /\
  user_verification_data (db (snd r)) = ∅.
Proof.
  exact (failed_validation_leaves_no_audit_record
           Scenario.digest Scenario.config 1000 no_faults
           (Document Scenario.invalid_ticket) "ST-12345" "tok" None
           (Scenario.world_with [Scenario.pending 2000])
           (Scenario.pending 2000)
           eq_refl eq_refl eq_refl eq_refl).
Defined.

(** The token ["tok"], expired at 900, is presented at 1000. *)
Lemma expired_token_is_refused_witness :
  let w := Scenario.world_with [Scenario.pending 900] in
  CASService.hash_matches Scenario.digest Scenario.config "tok"
    (Scenario.pending 900) = true /\
  fst (CASService.handle_callback Scenario.digest Scenario.config 1000
         no_faults (Document Scenario.jan_novak) "ST-1" "tok" None w)
  = Returns (Failure "Invalid or expired verification state").
Proof.
  split; [reflexivity|].
  refine (proj1 (expired_token_is_refused Scenario.digest Scenario.config 1000
                   no_faults (Document Scenario.jan_novak) "ST-1" "tok" None
                   (Scenario.world_with [Scenario.pending 900]) eq_refl _)).
  intros vs [<-|[]] _. cbn. lia.
Defined.

(** The token ["tok"] is redeemed at 1000 with a valid ticket and presented
    again at 1001. *)
Lemma token_redeemed_at_most_once_witness :
  let w := Scenario.world_with [Scenario.pending 2000] in
  let first := CASService.handle_callback Scenario.digest Scenario.config 1000
                 no_faults (Document Scenario.jan_novak) "ST-1" "tok" None w in
  (exists c, fst first = Returns (Success 42 7 c false)) /\
  fst (CASService.handle_callback Scenario.digest Scenario.config 1001
         no_faults (Document Scenario.jan_novak) "ST-2" "tok" None (snd first))
  = Returns (Failure "Invalid or expired verification state").
Proof.
  split; [eexists; vm_compute; reflexivity|].
  refine (proj2 (proj2 (proj1
    (token_redeemed_at_most_once Scenario.digest Scenario.config "tok"
       (Scenario.world_with [Scenario.pending 2000]) _)
    1000 no_faults (Document Scenario.jan_novak) "ST-1" None
    (Scenario.pending 2000) eq_refl eq_refl eq_refl)
    1001 no_faults (Document Scenario.jan_novak) "ST-2" None) eq_refl).
  intros vs vs' [<-|[]] [<-|[]] _ _. reflexivity.
Defined.

(** C3. [validate_cas_ticket] never raises and changes no table. On an
    answer that is not a success document (request failed, body not XML, no
    [cas:authenticationSuccess]) it returns [None]: the value handed back
    carries neither code nor message. Those are written to the log only: for
    a document whose first [cas:authenticationFailure] is [f], the last log
    line is the error "CAS validation failed: <code> - <message>" with the
    [code] attribute of [f] (printed [None] when [f] has none) and the
    stripped text of [f]; for a document with neither element the code
    logged is [UNKNOWN]. *)
Theorem validate_cas_ticket_failure_is_None
    (config : Config) (response : Response) (ticket state : string) (w : World) :
  let r := CASService.validate_cas_ticket config response ticket state w in
  (exists v, fst r = Returns v) /\
  db (snd r) = db w /\
  (CASService.rejected response -> fst r = Returns None) /\
  (forall root f,
     response = Document root ->
     ET.find (ET.cas "authenticationSuccess") root = None ->
     ET.find (ET.cas "authenticationFailure") root = Some f ->
     last (log (snd r))
     = Some (mkLog ERROR
               ("CAS validation failed: "
                  +:+ CASService.str_opt (ET.attrib_get "code" f) +:+ " - "
                  +:+ PyStr.strip (default "" (ET.text f))))) /\
  (forall root,
     response = Document root ->
     ET.find (ET.cas "authenticationSuccess") root = None ->
     ET.find (ET.cas "authenticationFailure") root = None ->
     last (log (snd r))
     = Some (mkLog ERROR "CAS validation failed: UNKNOWN - CAS authentication failed")).
Proof.
  cbv zeta. split; [|split; [|split; [|split]]].
  - destruct (validate_cas_ticket_returns config response ticket state w)
      as (v & lines & ->). eauto.
  - destruct (validate_cas_ticket_returns config response ticket state w)
      as (v & lines & ->). reflexivity.
  - apply validate_cas_ticket_rejected.
  - intros root f -> Hs Hf.
    unfold CASService.validate_cas_ticket, CASService.parse_response. mrun.
    rewrite Hs, Hf. mrun. cbn [snd log]. now rewrite last_snoc.
  - intros root -> Hs Hf.
    unfold CASService.validate_cas_ticket, CASService.parse_response. mrun.
    rewrite Hs, Hf. mrun. cbn [snd log]. now rewrite last_snoc.
Qed.

(** Against C3 as stated: two rejections with different codes and messages
    hand back the same value, [None], so the value carries no code. *)
Lemma validate_cas_ticket_drops_the_code :
  let w := Scenario.world_with [] in
  let r1 := fst (CASService.validate_cas_ticket Scenario.config
                   (Document (Scenario.failure_document "INVALID_TICKET"
                                "Ticket 'ST-12345' not recognized"))
                   "ST-12345" "tok" w) in
  let r2 := fst (CASService.validate_cas_ticket Scenario.config
                   (Document (Scenario.failure_document "INVALID_SERVICE"
                                "Service not allowed"))
                   "ST-12345" "tok" w) in
  r1 = Returns None /\ r2 = Returns None /\ r1 = r2.
Proof. vm_compute. auto. Qed.

(** ** The verification profile *)





(** ** Role preservation *)

Section RoleFacts.
Variable config : Config.


Lemma assign_verified_roles_grants member cas_login w u rid :
  users (db w) !! id member = Some u ->
  get_role (guild member)
    (if (User.type u =? 2)%Z then teacher_role_id config
     else student_role_id config) = Some rid ->
  roles_added (snd (VerificationService.assign_verified_roles config None
                      member cas_login w))
  = roles_added w ++ [(id member, [rid])].
Proof.
  intros Hu Hrole. unfold VerificationService.assign_verified_roles. mrun.
  rewrite Hu. destruct (User.type u =? 2)%Z; rewrite Hrole; reflexivity.
Qed.

Lemma resolve_roles_all (g : Guild) (role_ids : list Z) :
  Forall (fun r => In r (guild_roles g)) role_ids ->
  VerificationService.resolve_roles g role_ids = role_ids.
Proof.
  unfold VerificationService.resolve_roles.
  induction 1 as [|r rs Hr _ IH]; [reflexivity|].
  cbn. unfold get_role at 1.
  assert (existsb (Z.eqb r) (guild_roles g) = true) as ->.
  { apply existsb_exists. exists r. split; [exact Hr | apply Z.eqb_refl]. }
  cbn. now rewrite IH.
Qed.

(** Without a usable snapshot [restore_roles] is the default assignment. *)
Lemma restore_roles_without_snapshot answer member w :
  (forall v, user_verification_data (db w) !! id member = Some v ->
     PreservedRoles.truthy (UserVerificationData.preserved_roles v) = false) ->
  VerificationService.restore_roles config answer member w
  = VerificationService.assign_verified_roles config answer member
      (match user_verification_data (db w) !! id member with
       | Some v => UserVerificationData.cas_login v
       | None => ""
       end)
      (mkWorld (db w)
         (log w ++ [mkLog DEBUG ("No preserved roles for "
                                   +:+ PyStr.str_of_int (id member)
                                   +:+ ", assigning default roles")])
         (roles_added w)).
Proof.
  intros H. unfold VerificationService.restore_roles. mrun.
  destruct (user_verification_data (db w) !! id member) as [v|]; [|reflexivity].
  rewrite (H v eq_refl). reflexivity.
Qed.

End RoleFacts.

(** C10. [restore_roles] consumes the snapshot only when roles were
    granted: for a subject whose snapshot exists but lists no role, or lists
    only roles the guild no longer resolves, or whose [add_roles] Discord
    refuses, the call returns with every table as it was (the snapshot is
    still stored, for a later restore to use) and no role granted. *)
Theorem restore_without_grant_keeps_snapshot
    (config : Config) (answer : option Exception) (member : Member)
    (w : World) (ver : UserVerificationData.t) :
  user_verification_data (db w) !! id member = Some ver ->
  PreservedRoles.truthy (UserVerificationData.preserved_roles ver) = true ->
  let role_ids :=
    match UserVerificationData.preserved_roles ver with
    | Some p => default [] (PreservedRoles.role_ids p)
    | None => []
    end in
  role_ids = [] \/
  VerificationService.resolve_roles (guild member) role_ids = [] \/
  answer <> None ->
  let r := VerificationService.restore_roles config answer member w in
  fst r = Returns tt /\
  db (snd r) = db w /\
  roles_added (snd r) = roles_added w /\
  user_verification_data (db (snd r)) !! id member = Some ver.
Proof.
  intros Hver Htruthy role_ids Hcase r. subst r.
  unfold VerificationService.restore_roles. mrun.
  rewrite Hver, Htruthy. fold role_ids.
  destruct (VerificationService.resolve_roles (guild member) role_ids)
    as [|x xs] eqn:Hres.
  { cbn. auto. }
  destruct Hcase as [Hnil | [Hnone | Hans]].
  - rewrite Hnil in Hres. discriminate.
  - discriminate.
  - destruct answer as [e|]; [|congruence].
    unfold add_roles. mrun. destruct e; cbn; auto.
Qed.

(** Subject 42 has a snapshot without roles (the member held only the
    everyone role when it was taken). *)
Lemma restore_without_grant_keeps_snapshot_witness :
  let w := Scenario.world_42 (Some (PreservedRoles.mk (Some []) (Some 900))) in
  let r := VerificationService.restore_roles Scenario.config None
             (Scenario.member_42 [1]) w in
  db (snd r) = db w /\ roles_added (snd r) = [].
Proof.
  cbv zeta.
  destruct (restore_without_grant_keeps_snapshot Scenario.config None
              (Scenario.member_42 [1])
              (Scenario.world_42 (Some (PreservedRoles.mk (Some []) (Some 900))))
              (Scenario.profile_42 (Some (PreservedRoles.mk (Some []) (Some 900))))
              eq_refl eq_refl (or_introl eq_refl))
    as (_ & Hdb & Hroles & _).
  split; [exact Hdb | exact Hroles].
Defined.

(** C8 (amended). For a subject with a profile, [preserve_roles] stores the
    member's roles minus the everyone role. When at least one of them is
    still resolved by the guild and Discord accepts the call, a following
    [restore_roles] grants exactly the stored roles that the guild resolves
    (all of them when they all still exist) and clears the snapshot, so a
    second [restore_roles] is the default assignment and not the old
    snapshot. [restore_roles] without a usable snapshot is the default
    assignment, which grants the teacher role to a user of type 2 and the
    student role otherwise, when the user row and that role exist. *)
Theorem snapshot_restore_round_trip
    (config : Config) (now : datetime) (member member' : Member)
    (w : World) (ver : UserVerificationData.t) :
  user_verification_data (db w) !! id member = Some ver ->
  id member' = id member ->
  guild member' = guild member ->
  let snapshot :=
    List.filter (fun r => negb (r =? default_role (guild member))) (roles member) in
  let granted := VerificationService.resolve_roles (guild member) snapshot in
  granted <> [] ->
  let w1 := snd (VerificationService.preserve_roles now member w) in
  let w2 := snd (VerificationService.restore_roles config None member' w1) in
  (exists v1, user_verification_data (db w1) !! id member = Some v1 /\
     UserVerificationData.preserved_roles v1
     = Some (PreservedRoles.mk (Some snapshot) (Some now))) /\
  roles_added w2 = roles_added w ++ [(id member, granted)] /\
  (Forall (fun r => In r (guild_roles (guild member))) snapshot ->
     granted = snapshot) /\
  (exists v2, user_verification_data (db w2) !! id member = Some v2 /\
     UserVerificationData.preserved_roles v2 = None /\
     UserVerificationData.cas_login v2 = UserVerificationData.cas_login ver) /\
  (forall answer,
     VerificationService.restore_roles config answer member' w2
     = VerificationService.assign_verified_roles config answer member'
         (UserVerificationData.cas_login ver)
         (mkWorld (db w2)
            (log w2 ++ [mkLog DEBUG ("No preserved roles for "
                                      +:+ PyStr.str_of_int (id member')
                                      +:+ ", assigning default roles")])
            (roles_added w2))) /\
  (forall (w0 : World) (m : Member) (u : User.t) (rid : Z) (cas_login : string),
     users (db w0) !! id m = Some u ->
     get_role (guild m)
       (if (User.type u =? 2)%Z then teacher_role_id config
        else student_role_id config) = Some rid ->
     roles_added (snd (VerificationService.assign_verified_roles config None
                         m cas_login w0))
     = roles_added w0 ++ [(id m, [rid])]).
Proof.
  intros Hver Hid Hguild snapshot granted Hgranted w1 w2.
  assert (Hw1 : w1 = mkWorld
            (set_user_verification_data
               <[id member :=
                   UserVerificationData.mk
                     (UserVerificationData.discord_id ver)
                     (UserVerificationData.cas_login ver)
                     (UserVerificationData.cas_real_name ver)
                     (UserVerificationData.cas_email ver)
                     (UserVerificationData.verified_at ver)
                     (UserVerificationData.last_reverified_at ver)
                     (UserVerificationData.reverification_required ver)
                     (UserVerificationData.reverification_reason ver)
                     (UserVerificationData.reverification_requested_at ver)
                     (UserVerificationData.reverification_wave_id ver)
                     (Some (PreservedRoles.mk (Some snapshot) (Some now)))
                     (UserVerificationData.updated_at ver)]> (db w))
            (log w ++ [mkLog INFO ("Preserved " +:+ str_len snapshot
                                     +:+ " roles for user "
                                     +:+ PyStr.str_of_int (id member))])
            (roles_added w)).
  { subst w1. unfold VerificationService.preserve_roles. mrun.
    rewrite Hver. reflexivity. }
  assert (Hw2 : exists lines,
            w2 = mkWorld
                   (set_user_verification_data
                      <[id member :=
                          VerificationService.clear_preserved_roles
                            (UserVerificationData.mk
                               (UserVerificationData.discord_id ver)
                               (UserVerificationData.cas_login ver)
                               (UserVerificationData.cas_real_name ver)
                               (UserVerificationData.cas_email ver)
                               (UserVerificationData.verified_at ver)
                               (UserVerificationData.last_reverified_at ver)
                               (UserVerificationData.reverification_required ver)
                               (UserVerificationData.reverification_reason ver)
                               (UserVerificationData.reverification_requested_at ver)
                               (UserVerificationData.reverification_wave_id ver)
                               (Some (PreservedRoles.mk (Some snapshot) (Some now)))
                               (UserVerificationData.updated_at ver))]> (db w1))
                   lines
                   (roles_added w ++ [(id member, granted)])).
  { subst w2. rewrite Hw1.
    unfold VerificationService.restore_roles. mrun. cbn [user_verification_data
      set_user_verification_data]. rewrite Hid, Hguild, lookup_insert_eq.
    cbn -[VerificationService.resolve_roles]. fold snapshot. fold granted.
    destruct granted as [|x xs] eqn:E; [congruence|].
    unfold add_roles. mrun. rewrite Hid. eexists. reflexivity. }
  destruct Hw2 as [lines Hw2].
  split; [|split; [|split; [|split; [|split]]]].
  - rewrite Hw1. cbn. rewrite lookup_insert_eq. eauto.
  - now rewrite Hw2.
  - apply resolve_roles_all.
  - rewrite Hw2. cbn. rewrite lookup_insert_eq. eauto.
  - intros answer.
    rewrite restore_roles_without_snapshot.
    + rewrite Hid, Hw2. cbn. rewrite lookup_insert_eq. reflexivity.
    + rewrite Hid, Hw2. cbn. rewrite lookup_insert_eq. now intros v [= <-].
  - intros w0 m u rid cas_login. apply assign_verified_roles_grants.
Qed.

(** The round trip of the roles 10, 20, 30: subject 42 holds them besides
    the everyone role, loses them, and gets exactly them back. *)
Lemma snapshot_restore_round_trip_witness :
  let w := Scenario.world_42 None in
  let w1 := snd (VerificationService.preserve_roles 900
                   (Scenario.member_42 [1; 10; 20; 30]) w) in
  let w2 := snd (VerificationService.restore_roles Scenario.config None
                   (Scenario.member_42 [1]) w1) in
  roles_added w2 = [(42, [10; 20; 30])].
Proof.
  cbv zeta.
  refine (proj1 (proj2
    (snapshot_restore_round_trip Scenario.config 900
       (Scenario.member_42 [1; 10; 20; 30]) (Scenario.member_42 [1])
       (Scenario.world_42 None) (Scenario.profile_42 None)
       eq_refl eq_refl eq_refl _))).
  vm_compute. discriminate.
Defined.

(** Against C8 as stated. (a) Subject 42 holds only the everyone role: the
    snapshot lists no role, [restore_roles] leaves it stored, and the second
    [restore_roles] grants nothing either, the default role included.
    (b) Subject 42 holds the roles 10, 20, 30 and Discord refuses the
    [add_roles] of the restore: nothing is granted and the snapshot stays. *)
Lemma restore_may_keep_the_snapshot :
  let w := Scenario.world_42 None in
  (let w1 := snd (VerificationService.preserve_roles 900
                    (Scenario.member_42 [1]) w) in
   let w2 := snd (VerificationService.restore_roles Scenario.config None
                    (Scenario.member_42 [1]) w1) in
   let w3 := snd (VerificationService.restore_roles Scenario.config None
                    (Scenario.member_42 [1]) w2) in
   (UserVerificationData.preserved_roles <$>
      (user_verification_data (db w2) !! 42))
   = Some (Some (PreservedRoles.mk (Some []) (Some 900))) /\
   roles_added w3 = []) /\
  (let w1 := snd (VerificationService.preserve_roles 900
                    (Scenario.member_42 [1; 10; 20; 30]) w) in
   let w2 := snd (VerificationService.restore_roles Scenario.config
                    (Some (Forbidden "Missing Permissions"))
                    (Scenario.member_42 [1]) w1) in
   (UserVerificationData.preserved_roles <$>
      (user_verification_data (db w2) !! 42))
   = Some (Some (PreservedRoles.mk (Some [10; 20; 30]) (Some 900))) /\
   roles_added w2 = []).
Proof. vm_compute. auto. Qed.

(** ** Wave scheduling *)

Section BlockFacts.
Variable size : nat.
Hypothesis size_pos : (1 <= size)%nat.

Lemma blocks_concat (fuel : nat) (l : list Z) :
  (length l <= fuel)%nat -> concat (WaveScheduler.blocks fuel size l) = l.
Proof using size_pos.
  revert l. induction fuel as [|fuel IH]; intros l Hlen.
  - destruct l; [reflexivity | cbn in Hlen; lia].
  - destruct l as [|x l]; [reflexivity|].
    cbn [WaveScheduler.blocks concat].
    rewrite IH; [apply take_drop|].
    rewrite length_drop. cbn [length] in *. lia.
Qed.

Lemma blocks_bounds (fuel : nat) (l : list Z) :
  Forall (fun c => (1 <= length c <= size)%nat) (WaveScheduler.blocks fuel size l).
Proof using size_pos.
  revert l. induction fuel as [|fuel IH]; intros l; [constructor|].
  destruct l as [|x l]; [constructor|].
  cbn [WaveScheduler.blocks]. constructor; [|apply IH].
  rewrite length_take. cbn [length]. lia.
Qed.

Lemma blocks_full (fuel : nat) (l : list Z) (k : nat) (c : list Z) :
  WaveScheduler.blocks fuel size l !! k = Some c ->
  (S k < length (WaveScheduler.blocks fuel size l))%nat ->
  length c = size.
Proof using size_pos.
  revert l k. induction fuel as [|fuel IH]; intros l k; [discriminate|].
  destruct l as [|x l]; [discriminate|].
  cbn [WaveScheduler.blocks]. destruct k as [|k].
  - intros [= <-] Hmore. cbn [length] in Hmore.
    rewrite length_take.
    destruct (drop size (x :: l)) as [|y rest] eqn:Hdrop.
    + destruct fuel; cbn in Hmore; lia.
    + assert (Hlen : length (drop size (x :: l)) = S (length rest))
        by now rewrite Hdrop.
      rewrite length_drop in Hlen. lia.
  - cbn [lookup list_lookup length]. intros Hk Hmore.
    apply (IH (drop size (x :: l)) k); [exact Hk | lia].
Qed.

Lemma blocks_count (fuel : nat) (l : list Z) (window : nat) :
  (length l <= window * size)%nat ->
  (length (WaveScheduler.blocks fuel size l) <= window)%nat.
Proof using size_pos.
  revert l window. induction fuel as [|fuel IH]; intros l window Hlen;
    [cbn; lia|].
  destruct l as [|x l]; [cbn; lia|].
  cbn [WaveScheduler.blocks length].
  destruct window as [|window]; [cbn in Hlen; lia|].
  apply le_n_S, IH. rewrite length_drop. cbn [length] in *. lia.
Qed.

End BlockFacts.

Lemma concat_NoDup_disjoint (ls : list (list Z)) :
  NoDup (concat ls) ->
  forall i j ci cj x,
    i <> j -> ls !! i = Some ci -> ls !! j = Some cj ->
    x ∈ ci -> x ∉ cj.
Proof.
  induction ls as [|c ls IH]; intros Hnd i j ci cj x Hij Hi Hj Hx;
    [discriminate|].
  cbn [concat] in Hnd. apply NoDup_app in Hnd as (_ & Hsep & Hrest).
  assert (Hin : forall k d y, ls !! k = Some d -> y ∈ d -> y ∈ concat ls).
  { intros k d y Hk Hy. apply list_elem_of_In, in_concat.
    exists d. split; apply list_elem_of_In; [|exact Hy].
    apply list_elem_of_lookup. eauto. }
  destruct i as [|i], j as [|j]; cbn in Hi, Hj.
  - congruence.
  - injection Hi as <-. intros Hy. apply (Hsep x Hx). eauto.
  - injection Hj as <-. intros Hy. apply (Hsep x Hy). eauto.
  - apply (IH Hrest i j ci cj x); auto.
Qed.

Lemma cohort_size_pos (total_users : Z) (pct : Q) :
  0 < total_users -> (0 < pct)%Q ->
  1 <= WaveScheduler.cohort_size total_users pct.
Proof.
  intros Htotal Hpct. unfold WaveScheduler.cohort_size.
  set (x := (inject_Z total_users * pct / inject_Z 100)%Q).
  assert (Hx : (0 < x)%Q).
  { subst x. unfold Qdiv. apply Qmult_lt_0_compat.
    - apply Qmult_lt_0_compat; [|exact Hpct].
      change 0%Q with (inject_Z 0). now rewrite <- Zlt_Qlt.
    - apply Qinv_lt_0_compat. reflexivity. }
  assert (H0 : (inject_Z 0 < inject_Z (Qceiling x))%Q).
  { eapply Qlt_le_trans; [exact Hx | apply Qle_ceiling]. }
  rewrite <- Zlt_Qlt in H0. lia.
Qed.

(** C9 (amended). [createWave] rejects a percentage or a window that is not
    positive. Otherwise the wave counts the holders; its cohorts, in order,
    are the holders (so the cohort sizes add up to [total_users], and no
    subject is in two cohorts when the holders are distinct); every cohort
    has between 1 and [ceil(total_users * percent / 100)] subjects, and all
    but the last have exactly that many; and when the window has room for
    everybody ([total_users <= window_days * cohort size]) every cohort is
    scheduled in [[today, today + window_days)]. *)
Theorem createWave_schedule
    (holders : list Z) (today target_role window_days : Z) (percent : Q) :
  let created :=
    WaveScheduler.createWave holders today target_role window_days percent in
  let size := WaveScheduler.cohort_size (Z.of_nat (length holders)) percent in
  (((percent <= 0)%Q \/ window_days <= 0) -> created = None) /\
  ((0 < percent)%Q -> 0 < window_days ->
   exists w,
     created = Some w /\
     WaveScheduler.total_users w = Z.of_nat (length holders) /\
     WaveScheduler.start_date w = today /\
     WaveScheduler.end_date w = today + window_days /\
     concat (WaveScheduler.cohorts w) = holders /\
     Z.of_nat (list_sum (map length (WaveScheduler.cohorts w)))
     = WaveScheduler.total_users w /\
     Forall (fun c => 1 <= Z.of_nat (length c) <= size) (WaveScheduler.cohorts w) /\
     (forall k c,
        WaveScheduler.cohorts w !! k = Some c ->
        (S k < length (WaveScheduler.cohorts w))%nat ->
        Z.of_nat (length c) = size) /\
     (NoDup holders ->
      forall i j ci cj x,
        i <> j ->
        WaveScheduler.cohorts w !! i = Some ci ->
        WaveScheduler.cohorts w !! j = Some cj ->
        x ∈ ci -> x ∉ cj) /\
     (WaveScheduler.total_users w <= window_days * size ->
      forall k, (k < length (WaveScheduler.cohorts w))%nat ->
        today <= WaveScheduler.scheduled_for w k < today + window_days)).
Proof.
  cbv zeta. unfold WaveScheduler.createWave. split.
  - intros [Hp | Hw].
    + apply Qle_bool_iff in Hp. now rewrite Hp.
    + apply Z.leb_le in Hw. now rewrite Hw, orb_true_r.
  - intros Hp Hw.
    assert (Qle_bool percent 0 = false) as ->.
    { destruct (Qle_bool percent 0) eqn:E; [|reflexivity].
      apply Qle_bool_iff in E. exfalso. apply (Qlt_irrefl 0).
      eapply Qlt_le_trans; eauto. }
    assert ((window_days <=? 0) = false) as -> by (apply Z.leb_gt; lia).
    cbn [orb]. eexists. split; [reflexivity|].
    cbn [WaveScheduler.total_users WaveScheduler.start_date
           WaveScheduler.end_date WaveScheduler.cohorts].
    set (size := WaveScheduler.cohort_size (Z.of_nat (length holders)) percent).
    destruct holders as [|h holders].
    { cbn. repeat split; auto; try lia; try discriminate. }
    set (hs := h :: holders).
    assert (Hsize : 1 <= size).
    { apply cohort_size_pos; [cbn [length]; lia | exact Hp]. }
    assert (Hnat : (1 <= Z.to_nat size)%nat) by lia.
    assert (Hconcat : concat (WaveScheduler.blocks (length hs) (Z.to_nat size) hs) = hs)
      by (apply blocks_concat; [exact Hnat | lia]).
    split; [reflexivity|]. split; [reflexivity|]. split; [reflexivity|].
    split; [exact Hconcat|].
    split; [now rewrite <- length_concat, Hconcat|].
    split.
    { eapply Forall_impl; [apply (blocks_bounds (Z.to_nat size) Hnat)|].
      cbn beta. intros c Hc. lia. }
    split.
    { intros k c Hk Hmore.
      rewrite (blocks_full (Z.to_nat size) Hnat _ _ _ _ Hk Hmore). lia. }
    split.
    { intros Hnd. apply concat_NoDup_disjoint. now rewrite Hconcat. }
    intros Hroom k Hk. unfold WaveScheduler.scheduled_for.
    cbn [WaveScheduler.start_date].
    assert (length (WaveScheduler.blocks (length hs) (Z.to_nat size) hs)
            <= Z.to_nat window_days)%nat.
    { apply blocks_count; [exact Hnat|]. nia. }
    lia.
Qed.

(** Against C9 as stated. Ten holders at 30 percent a day give the cohort
    size 3 and the cohorts of sizes 3, 3, 3 and 1: the last one is not of
    that size, and no list of cohorts of 3 subjects each adds up to 10. With
    the default settings (a window of 14 days, 7 percent a day) and 100
    holders the cohort size is 7 and 15 days are needed; no 14 cohorts of at
    most 7 subjects add up to 100. *)
Lemma cohorts_are_not_all_full :
  WaveScheduler.cohort_size 10 (30 # 1) = 3 /\
  (map length <$>
     (WaveScheduler.cohorts <$>
        WaveScheduler.createWave [1; 2; 3; 4; 5; 6; 7; 8; 9; 10] 0 5 14 (30 # 1)))
  = Some [3; 3; 3; 1]%nat /\
  (~ exists cs : list (list Z),
       Forall (fun c => Z.of_nat (length c) = WaveScheduler.cohort_size 10 (30 # 1)) cs /\
       list_sum (map length cs) = 10%nat) /\
  WaveScheduler.cohort_size 100 (7 # 1) = 7 /\
  (~ exists cs : list (list Z),
       (length cs <= 14)%nat /\
       Forall (fun c => Z.of_nat (length c) <= WaveScheduler.cohort_size 100 (7 # 1)) cs /\
       list_sum (map length cs) = 100%nat).
Proof.
  split; [reflexivity|]. split; [reflexivity|]. split; [|split; [reflexivity|]].
  - intros (cs & Hall & Hsum).
    assert (H : list_sum (map length cs) = (3 * length cs)%nat).
    { clear Hsum. induction Hall as [|c cs Hc _ IH]; [reflexivity|].
      change (list_sum (map length (c :: cs)))
        with (length c + list_sum (map length cs))%nat.
      rewrite IH. cbn [length].
      change (WaveScheduler.cohort_size 10 (30 # 1)) with 3 in Hc. lia. }
    lia.
  - intros (cs & Hlen & Hall & Hsum).
    assert (H : (list_sum (map length cs) <= 7 * length cs)%nat).
    { clear Hsum Hlen. induction Hall as [|c cs Hc _ IH]; [cbn; lia|].
      change (list_sum (map length (c :: cs)))
        with (length c + list_sum (map length cs))%nat.
      cbn [length].
      change (WaveScheduler.cohort_size 100 (7 # 1)) with 7 in Hc. lia. }
    lia.
Qed.

(** ** Further properties of the callback flow *)

Lemma find_last_live {A} (f g : A -> bool) (l : list A) (x : A) :
  (forall y, In y l -> f y = false) -> f x = true -> g x = true ->
  List.find f (List.filter g (l ++ [x])) = Some x.
Proof.
  intros Hold Hf Hg. induction l as [|y l IH]; cbn.
  - now rewrite Hg; cbn; rewrite Hf.
  - destruct (g y); cbn; [rewrite (Hold y) by (now left)|];
      apply IH; intros z Hz; apply Hold; now right.
Qed.

(** A token handed out by [generate_verification_url] (the token opens no
    row yet, and the insert passes the constraints of the table) is issued
    once, and a callback that presents it before its expiry, with a success
    document and a database that answers, returns [Success] for the
    subject, the guild and the kind of verification it was issued for. *)
Theorem issued_token_is_redeemable
    (sha256 : string -> string) (urlencode : list (string * string) -> string)
    (config : Config) (now0 : datetime) (token : string)
    (discord_id guild_id : Z) (is_reverification : bool)
    (ip_address user_agent : option string) (w : World)
    (now : datetime) (root success : Element) (ticket : string)
    (ip : option string) :
  (forall vs, In vs (verification_states (db w)) ->
     CASService.hash_matches sha256 config token vs = false) ->
  CASService.insert_state
    (VerificationState.mk (CASService.state_hash sha256 config token discord_id)
       discord_id guild_id (negb is_reverification)
       (now0 + CASService.minutes (verification_state_expiry_minutes config))
       ip_address user_agent) (db w) = None ->
  now < now0 + CASService.minutes (verification_state_expiry_minutes config) ->
  ET.find (ET.cas "authenticationSuccess") root = Some success ->
  let issued := CASService.generate_verification_url sha256 urlencode config
                  now0 token discord_id guild_id is_reverification
                  ip_address user_agent w in
  (exists auth_url, fst issued = Returns (auth_url, token)) /\
  CASService.issued_once sha256 config token
    (verification_states (db (snd issued))) /\
  exists cas_data,
    fst (CASService.handle_callback sha256 config now no_faults (Document root)
           ticket token ip (snd issued))
    = Returns (Success discord_id guild_id cas_data is_reverification).
Proof.
  intros Hfresh Hinsert Hlive Hsuccess issued. subst issued.
  unfold CASService.generate_verification_url. mrun. rewrite Hinsert. cbn.
  set (row := VerificationState.mk _ _ _ _ _ _ _).
  assert (Hrow : CASService.hash_matches sha256 config token row = true)
    by apply String.eqb_refl.
  split; [eauto|]. split.
  - intros vs vs' Hvs Hvs' Hm Hm'.
    apply in_app_or in Hvs as [Hvs|[<-|[]]];
      [rewrite (Hfresh vs Hvs) in Hm; discriminate|].
    apply in_app_or in Hvs' as [Hvs'|[<-|[]]];
      [rewrite (Hfresh vs' Hvs') in Hm'; discriminate|].
    reflexivity.
  - unfold CASService.handle_callback, no_faults.
    cbn [select_states_fault delete_state_fault audit_fault failure_audit_fault].
    mrun. cbn [verification_states set_verification_states].
    unfold CASService.live.
    rewrite (find_last_live _ _ _ row Hfresh Hrow)
      by (apply Z.ltb_lt; exact Hlive).
    mrun. unfold CASService.validate_cas_ticket, CASService.parse_response.
    mrun. rewrite Hsuccess. mrun. cbn.
    rewrite negb_involutive. eauto.
Qed.

(** User 42 clicks the button at 0 and comes back at 1000 with a ticket the
    provider accepts. *)
Lemma issued_token_is_redeemable_witness :
  let w := mkWorld (mkDatabase {[ 42 := Scenario.user_42 ]} ∅ [] []) [] [] in
  let issued := CASService.generate_verification_url Scenario.digest
                  (fun _ => "service=...") Scenario.config 0 "tok" 42 7 false
                  None None w in
  exists cas_data,
    fst (CASService.handle_callback Scenario.digest Scenario.config 1000
           no_faults (Document Scenario.jan_novak) "ST-1" "tok" None (snd issued))
    = Returns (Success 42 7 cas_data false).
Proof.
  cbv zeta.
  refine (proj2 (proj2
    (issued_token_is_redeemable Scenario.digest (fun _ => "service=...")
       Scenario.config 0 "tok" 42 7 false None None
       (mkWorld (mkDatabase {[ 42 := Scenario.user_42 ]} ∅ [] []) [] [])
       1000 Scenario.jan_novak
       (mkElement (ET.cas "authenticationSuccess") [] None
          [mkElement (ET.cas "user") [] (Some "jan.novak") [];
           mkElement (ET.cas "attributes") [] None
             [mkElement (ET.cas "cn") [] (Some "Jan Novak") [];
              mkElement (ET.cas "mail") [] (Some "jan.novak@vsb.cz") [];
              mkElement (ET.cas "eduPersonAffiliation") [] (Some "faculty") []]])
       "ST-1" None _ eq_refl _ eq_refl))).
  - intros vs [].
  - vm_compute. reflexivity.
Defined.

(** A callback that returns [Success] has appended exactly one audit record:
    [result = "success"], the subject of the token, the login of the
    provider, the stored hash of the token and the digest of the ticket. *)
Theorem success_writes_one_audit_record
    (sha256 : string -> string) (config : Config)
    (now : datetime) (faults : Faults) (response : Response)
    (ticket state : string) (ip : option string) (w : World) :
  let r := CASService.handle_callback sha256 config now faults response
             ticket state ip w in
  forall d g c b,
    fst r = Returns (Success d g c b) ->
    exists m,
      List.find (CASService.hash_matches sha256 config state)
                (CASService.live now (verification_states (db w))) = Some m /\
      verification_audit (db (snd r))
      = verification_audit (db w)
          ++ [VerificationAudit.mk (Some d)
                (default "unknown" (CasData.login c))
                (default "unknown" (CasData.uid c))
                (Some (VerificationState.state m)) (Some (sha256 ticket))
                "success" None].
Proof.
  cbv zeta. intros d g c b.
  unfold CASService.handle_callback.
  destruct (select_states_fault faults) as [e|]; mrun.
  { destruct (failure_audit_fault faults); cbn; discriminate. }
  destruct (List.find _ _) as [m|] eqn:Hfind; mrun; [|discriminate].
  destruct (delete_state_fault faults) as [e|]; mrun.
  { destruct (failure_audit_fault faults); cbn; discriminate. }
  match goal with
  | |- context [CASService.validate_cas_ticket config response ticket state ?w0] =>
      destruct (validate_cas_ticket_returns config response ticket state w0)
        as (v & lines & ->)
  end.
  destruct v as [c'|]; [|discriminate].
  destruct (CasData.truthy c'); cbn; [|discriminate].
  unfold CASService._log_verification_audit. mrun.
  destruct (audit_fault faults); mrun.
  { destruct (failure_audit_fault faults); cbn; discriminate. }
  cbn. intros [= <- <- <- <-]. eauto.
Qed.

(** The pending token ["tok"] with a ticket the provider accepts. *)
Lemma success_writes_one_audit_record_witness :
  let w := Scenario.world_with [Scenario.pending 2000] in
  let r := CASService.handle_callback Scenario.digest Scenario.config 1000
             no_faults (Document Scenario.jan_novak) "ST-1" "tok" None w in
  verification_audit (db (snd r))
  = [VerificationAudit.mk (Some 42) "jan.novak" "jan.novak"
       (Some (CASService.state_hash Scenario.digest Scenario.config "tok" 42))
       (Some (Scenario.digest "ST-1")) "success" None].
Proof.
  cbv zeta.
  destruct (success_writes_one_audit_record Scenario.digest Scenario.config
              1000 no_faults (Document Scenario.jan_novak) "ST-1" "tok" None
              (Scenario.world_with [Scenario.pending 2000])
              42 7 Scenario.jan_novak_data false)
    as (m & Hm & Haudit); [vm_compute; reflexivity|].
  injection Hm as <-. exact Haudit.
Defined.


(** [is_verified] is true exactly when the subject has a profile whose
    [reverification_required] is false; it changes nothing. *)
Theorem is_verified_iff (discord_id : Z) (w : World) :
  VerificationService.is_verified discord_id w
  = (Returns
       (match user_verification_data (db w) !! discord_id with
        | Some v => negb (UserVerificationData.reverification_required v)
        | None => false
        end), w).
Proof.
  unfold VerificationService.is_verified. mrun.
  destruct (user_verification_data (db w) !! discord_id) as [v|]; [|reflexivity].
  now destruct (UserVerificationData.reverification_required v).
Qed.

(** Scenario A: the provider's document for [jan.novak] with the affiliation
    [faculty] is read into the login and the affiliation list, the
    classifier answers [Elevated], and the first verification creates user
    and profile with that type and login. *)
Theorem scenario_jan_novak :
  let w := Scenario.world_with [] in
  let validated := CASService.validate_cas_ticket Scenario.config
                     (Document Scenario.jan_novak) "ST-1" "tok" w in
  exists cas_data,
    fst validated = Returns (Some cas_data) /\
    cas_data = Scenario.jan_novak_data /\
    CasData.login cas_data = Some "jan.novak" /\
    CasData.eduPersonAffiliation cas_data = Some ["faculty"] /\
    fst (Classifier._determine_user_type
           (default [] (CasData.groups cas_data))
           (default [] (CasData.eduPersonAffiliation cas_data)))
    = Classifier.Elevated /\
    let saved := snd (VerificationService.save_verification_data 1000 1000 1000
                        42 cas_data false w) in
    (User.type <$> users (db saved) !! 42) = Some 2 /\
    (UserVerificationData.cas_login <$> user_verification_data (db saved) !! 42)
    = Some "jan.novak" /\
    (UserVerificationData.reverification_required <$>
       user_verification_data (db saved) !! 42) = Some false.
Proof.
  cbv zeta. eexists. split; [vm_compute; reflexivity|].
  vm_compute. repeat split; reflexivity.
Qed.

(** ** The callback never raises and only appends to the audit trail *)

(** Whatever the database, the provider and the inputs do, [handle_callback]
    returns a result dictionary (every exception ends in the handler, and a
    failing failure-audit is swallowed). It appends at most one record to
    the audit trail and changes none of the old ones; it adds no token row;
    it writes neither [users] nor [user_verification_data] and grants no
    role. *)
Theorem handle_callback_is_contained
    (sha256 : string -> string) (config : Config)
    (now : datetime) (faults : Faults) (response : Response)
    (ticket state : string) (ip : option string) (w : World) :
  let r := CASService.handle_callback sha256 config now faults response
             ticket state ip w in
  (exists result, fst r = Returns result) /\
  (exists added,
     verification_audit (db (snd r)) = verification_audit (db w) ++ added /\
     (length added <= 1)%nat) /\
  (forall vs, In vs (verification_states (db (snd r))) ->
              In vs (verification_states (db w))) /\
  users (db (snd r)) = users (db w) /\
  user_verification_data (db (snd r)) = user_verification_data (db w) /\
  roles_added (snd r) = roles_added w.
Proof.
  cbv zeta.
  assert (Hkeep : forall m vs,
            In vs (CASService.delete_state m (verification_states (db w))) ->
            In vs (verification_states (db w))).
  { intros m vs H. now apply delete_state_In in H as [H _]. }
  assert (Hnil : forall l : list VerificationAudit.t,
            exists added, l = l ++ added /\ (length added <= 1)%nat).
  { intros l. exists []. rewrite app_nil_r. cbn. auto. }
  assert (Hone : forall (l : list VerificationAudit.t) a,
            exists added, l ++ [a] = l ++ added /\ (length added <= 1)%nat).
  { intros l a. exists [a]. cbn. auto. }
  unfold CASService.handle_callback, CASService._log_verification_audit.
  destruct (select_states_fault faults) as [e|]; mrun.
  { destruct (failure_audit_fault faults); cbn; eauto 10. }
  destruct (List.find _ _) as [m|] eqn:Hfind; mrun; [|cbn; eauto 10].
  destruct (delete_state_fault faults) as [e|]; mrun.
  { destruct (failure_audit_fault faults); cbn; eauto 10. }
  match goal with
  | |- context [CASService.validate_cas_ticket config response ticket state ?w0] =>
      destruct (validate_cas_ticket_returns config response ticket state w0)
        as (v & lines & ->)
  end.
  destruct v as [c|]; [|cbn; eauto 10].
  destruct (CasData.truthy c); cbn; [|eauto 10].
  destruct (audit_fault faults); mrun; [|cbn; eauto 10].
  destruct (failure_audit_fault faults); cbn; eauto 10.
Qed.

(** When the deletion of the token row fails, the callback answers with the
    text of the exception, the token row is still in the table (the same
    token can be presented again), the provider is not asked (no line of the
    validation is logged) and the audit trail gets the handler's failure
    record without a subject, or nothing when that insert fails too. *)
Theorem failed_deletion_keeps_the_token
    (sha256 : string -> string) (config : Config)
    (now : datetime) (faults : Faults) (response : Response)
    (ticket state : string) (ip : option string) (w : World)
    (m : VerificationState.t) (e : Exception) :
  select_states_fault faults = None ->
  List.find (CASService.hash_matches sha256 config state)
            (CASService.live now (verification_states (db w))) = Some m ->
  delete_state_fault faults = Some e ->
  let r := CASService.handle_callback sha256 config now faults response
             ticket state ip w in
  fst r = Returns (Failure (str_exc e)) /\
  verification_states (db (snd r)) = verification_states (db w) /\
  log (snd r)
  = log w ++ [mkLog ERROR ("Callback handling error: " +:+ str_exc e)] /\
  verification_audit (db (snd r))
  = verification_audit (db w)
      ++ match failure_audit_fault faults with
         | None => [VerificationAudit.mk None "unknown" "unknown"
                      (Some (PyStr.slice_to 64 state)) (Some (sha256 ticket))
                      "failure" (Some (str_exc e))]
         | Some _ => []
         end.
Proof.
  intros Hsel Hfind Hdel. cbv zeta.
  unfold CASService.handle_callback, CASService._log_verification_audit.
  rewrite Hsel. mrun. rewrite Hfind, Hdel. mrun.
  destruct (failure_audit_fault faults); cbn; rewrite ?app_nil_r; auto.
Qed.

(** The deletion of the pending token ["tok"] fails: the row stays and the
    audit trail gets the failure record. *)
Lemma failed_deletion_keeps_the_token_witness :
  let w := Scenario.world_with [Scenario.pending 2000] in
  let r := CASService.handle_callback Scenario.digest Scenario.config 1000
             (mkFaults None (Some (DatabaseError "connection lost")) None None)
             (Document Scenario.jan_novak) "ST-1" "tok" None w in
  fst r = Returns (Failure "connection lost") /\
  verification_states (db (snd r)) = [Scenario.pending 2000].
Proof.
  cbv zeta.
  destruct (failed_deletion_keeps_the_token Scenario.digest Scenario.config 1000
              (mkFaults None (Some (DatabaseError "connection lost")) None None)
              (Document Scenario.jan_novak) "ST-1" "tok" None
              (Scenario.world_with [Scenario.pending 2000])
              (Scenario.pending 2000) (DatabaseError "connection lost")
              eq_refl eq_refl eq_refl) as (Hr & Hrows & _).
  split; [exact Hr | exact Hrows].
Defined.

(** When the provider accepts the ticket but the insert of the success
    record fails, the callback answers [Failure] with the text of that
    exception although the ticket was valid; the token is spent all the
    same, and the audit trail gets the handler's failure record without a
    subject (or nothing when that insert fails too): no success record. *)
Theorem failed_audit_turns_success_into_failure
    (sha256 : string -> string) (config : Config)
    (now : datetime) (faults : Faults) (root success : Element)
    (ticket state : string) (ip : option string) (w : World)
    (m : VerificationState.t) (e : Exception) :
  select_states_fault faults = None ->
  List.find (CASService.hash_matches sha256 config state)
            (CASService.live now (verification_states (db w))) = Some m ->
  delete_state_fault faults = None ->
  ET.find (ET.cas "authenticationSuccess") root = Some success ->
  audit_fault faults = Some e ->
  let r := CASService.handle_callback sha256 config now faults (Document root)
             ticket state ip w in
  fst r = Returns (Failure (str_exc e)) /\
  verification_states (db (snd r))
  = CASService.delete_state m (verification_states (db w)) /\
  verification_audit (db (snd r))
  = verification_audit (db w)
      ++ match failure_audit_fault faults with
         | None => [VerificationAudit.mk None "unknown" "unknown"
                      (Some (PyStr.slice_to 64 state)) (Some (sha256 ticket))
                      "failure" (Some (str_exc e))]
         | Some _ => []
         end.
Proof.
  intros Hsel Hfind Hdel Hsuccess Haudit. cbv zeta.
  unfold CASService.handle_callback, CASService._log_verification_audit.
  rewrite Hsel. mrun. rewrite Hfind, Hdel. mrun.
  unfold CASService.validate_cas_ticket, CASService.parse_response. mrun.
  rewrite Hsuccess. mrun. cbn. rewrite Haudit. mrun.
  destruct (failure_audit_fault faults); cbn; rewrite ?app_nil_r; auto.
Qed.

(** The provider accepts the ticket of ["tok"], the success record cannot
    be inserted. *)
Lemma failed_audit_turns_success_into_failure_witness :
  let w := Scenario.world_with [Scenario.pending 2000] in
  let r := CASService.handle_callback Scenario.digest Scenario.config 1000
             (mkFaults None None (Some (DatabaseError "value too long")) None)
             (Document Scenario.jan_novak) "ST-1" "tok" None w in
  fst r = Returns (Failure "value too long") /\
  verification_states (db (snd r)) = [] /\
  (VerificationAudit.result <$> verification_audit (db (snd r))) = ["failure"].
Proof.
  cbv zeta.
  destruct (failed_audit_turns_success_into_failure Scenario.digest
              Scenario.config 1000
              (mkFaults None None (Some (DatabaseError "value too long")) None)
              Scenario.jan_novak
              (mkElement (ET.cas "authenticationSuccess") [] None
                 [mkElement (ET.cas "user") [] (Some "jan.novak") [];
                  mkElement (ET.cas "attributes") [] None
                    [mkElement (ET.cas "cn") [] (Some "Jan Novak") [];
                     mkElement (ET.cas "mail") [] (Some "jan.novak@vsb.cz") [];
                     mkElement (ET.cas "eduPersonAffiliation") []
                               (Some "faculty") []]])
              "ST-1" "tok" None
              (Scenario.world_with [Scenario.pending 2000])
              (Scenario.pending 2000) (DatabaseError "value too long")
              eq_refl eq_refl eq_refl eq_refl eq_refl) as (Hr & Hrows & Haudit).
  split; [exact Hr|]. split; [exact Hrows|]. now rewrite Haudit.
Defined.

(** ** What the parser extracts *)







(** ** The verification record *)





Lemma requires_reverification_reads (discord_id : Z) (w : World) :
  VerificationService.requires_reverification discord_id w
  = (Returns
       (match user_verification_data (db w) !! discord_id with
        | Some v => (UserVerificationData.reverification_required v,
                     UserVerificationData.reverification_reason v)
        | None => (false, None)
        end), w).
Proof.
  unfold VerificationService.requires_reverification. mrun.
  now destruct (user_verification_data (db w) !! discord_id).
Qed.

(** After a successful [save_verification_data] the subject counts as
    verified when it had no profile, or the call was a re-verification, or
    no re-verification was pending; a success recorded as an initial
    verification does not lift a pending re-verification. Nobody else's
    standing changes. *)
Theorem standing_after_save
    (now_user now utcnow : datetime) (discord_id : Z) (cas_data : CasData.t)
    (is_reverification : bool) (w : World) :
  let r := VerificationService.save_verification_data now_user now utcnow
             discord_id cas_data is_reverification w in
  fst r = Returns tt ->
  fst (VerificationService.is_verified discord_id (snd r))
  = Returns
      (match user_verification_data (db w) !! discord_id with
       | None => true
       | Some v =>
           is_reverification
           || negb (UserVerificationData.reverification_required v)
       end) /\
  forall other, other <> discord_id ->
    fst (VerificationService.is_verified other (snd r))
    = fst (VerificationService.is_verified other w).
Proof.
  cbv zeta. unfold VerificationService.save_verification_data.
  destruct (Classifier._determine_user_type _ _) as [user_type line]. mrun.
  destruct (VerificationService.unique_login _ _ _) as [e|]; cbn;
    [discriminate|].
  intros _. rewrite !is_verified_iff. cbn [fst db].
  cbn [user_verification_data set_user_verification_data set_users].
  split.
  - rewrite lookup_insert_eq.
    destruct (user_verification_data (db w) !! discord_id) as [v|]; cbn;
      [|reflexivity].
    destruct is_reverification; cbn; reflexivity.
  - intros other Hne. rewrite !is_verified_iff. cbn [fst db].
    cbn [user_verification_data set_user_verification_data set_users].
    now rewrite lookup_insert_ne.
Qed.

(** Subject 42, asked to verify again, validates through a link that was
    issued as an initial verification: the re-verification stays pending. *)
Lemma standing_after_save_witness :
  let w := Scenario.world_42 None in
  let r := VerificationService.save_verification_data 1000 1000 1000 42
             Scenario.jan_novak_data false w in
  fst r = Returns tt /\
  fst (VerificationService.is_verified 42 (snd r)) = Returns false.
Proof.
  cbv zeta. split; [vm_compute; reflexivity|].
  refine (proj1 (standing_after_save 1000 1000 1000 42 Scenario.jan_novak_data
                   false (Scenario.world_42 None) _)).
  vm_compute. reflexivity.
Defined.


(** ** Role preservation *)






(** ** The web callback *)

Section FlowFacts.
Variable sha256 : string -> string.
Variable config : Config.





End FlowFacts.

(** A callback request without a ticket, or without a state, is answered
    400 before anything is read or written: the database is untouched (a
    pending token named by the state is not spent), no role is granted, and
    only the request counter and the log move. An empty parameter counts as
    missing. *)
Theorem callback_without_parameters
    (sha256 : string -> string) (config : Config) (env : OAuthWebServer.Env)
    (request_count : Z) (request : OAuthWebServer.Request) (w : World) :
  OAuthWebServer.given (OAuthWebServer.ticket request) = false \/
  OAuthWebServer.given (OAuthWebServer.state request) = false ->
  let r := OAuthWebServer.handle_callback sha256 config env request_count
             request w in
  fst r
  = Returns (request_count + 1,
             OAuthWebServer.mkHttpResponse 400
               (OAuthWebServer.ErrorPage
                  (if OAuthWebServer.given (OAuthWebServer.ticket request)
                   then "Invalid authentication state"
                   else "Missing authentication ticket"))) /\
  db (snd r) = db w /\
  roles_added (snd r) = roles_added w.
Proof.
  intros H. cbv zeta. unfold OAuthWebServer.handle_callback. mrun.
  destruct (OAuthWebServer.given (OAuthWebServer.ticket request)); cbn;
    [|auto].
  destruct H as [H|H]; [discriminate|]. rewrite H. cbn. auto.
Qed.

(** The state names the pending token ["tok"], the ticket is missing. *)
Lemma callback_without_parameters_witness :
  let w := Scenario.world_with [Scenario.pending 2000] in
  let env := OAuthWebServer.mkEnv 1000 no_faults (Document Scenario.jan_novak)
               1000 1000 1000 (fun _ => None) None 1000 in
  let r := OAuthWebServer.handle_callback Scenario.digest Scenario.config env 0
             (OAuthWebServer.mkRequest None (Some "tok") None) w in
  fst r = Returns (1, OAuthWebServer.mkHttpResponse 400
                        (OAuthWebServer.ErrorPage "Missing authentication ticket")) /\
  verification_states (db (snd r)) = [Scenario.pending 2000].
Proof.
  cbv zeta.
  destruct (callback_without_parameters Scenario.digest Scenario.config
              (OAuthWebServer.mkEnv 1000 no_faults (Document Scenario.jan_novak)
                 1000 1000 1000 (fun _ => None) None 1000)
              0 (OAuthWebServer.mkRequest None (Some "tok") None)
              (Scenario.world_with [Scenario.pending 2000])
              (or_introl eq_refl)) as (Hr & Hdb & _).
  split; [exact Hr | now rewrite Hdb].
Defined.



(** ** From the link to the roles *)











(** ** The commands *)

Ltac grun :=
  repeat (progress
            (unfold reply, send, remove_roles, lift, G_try_except, G_raise,
               mbind, G_bind, G_bind_, mret, G_ret, G_ret_ in *;
             cbn beta iota zeta in *));
  cbn [world roles_removed replies direct_messages] in *.

Ltac crun := repeat (progress (grun; mrun)).

Lemma among_spec (settings : list (option Z)) (role_id : Z) :
  among settings role_id = true <-> In (Some role_id) settings.
Proof.
  unfold among. rewrite existsb_exists. split.
  - intros ([r|] & Hin & H); [|discriminate].
    apply Z.eqb_eq in H. now subst.
  - intros H. exists (Some role_id). split; [exact H | apply Z.eqb_refl].
Qed.

Lemma is_admin_spec (staff : StaffRoles) (user : Member) :
  is_admin staff user = true <->
  exists role_id,
    In role_id (roles user) /\ role_id <> 0 /\
    (admin_role_id staff = Some role_id \/
     moderator_role_id staff = Some role_id).
Proof.
  unfold is_admin. rewrite existsb_exists. split.
  - intros (r & Hin & H). apply andb_true_iff in H as [Hnz Ham].
    apply negb_true_iff, Z.eqb_neq in Hnz. apply among_spec in Ham.
    exists r. cbn in Ham. intuition.
  - intros (r & Hin & Hnz & H). exists r. split; [exact Hin|].
    apply andb_true_iff. split.
    + now apply negb_true_iff, Z.eqb_neq.
    + apply among_spec. cbn. intuition.
Qed.

(** [reverify_user] does nothing for an invoker who holds neither the admin
    nor the moderator role (none at all when both settings are unset, and a
    role with id 0 never counts): nothing is preserved, nobody is marked, no
    role is removed, no link is issued, no direct message is sent; the only
    effect is the reply "Admin only". *)
Theorem reverify_needs_admin
    (sha256 : string -> string) (urlencode : list (string * string) -> string)
    (config : Config) (staff : StaffRoles) (env : VerificationAdminCog.Env)
    (interaction : Interaction) (user : Member) (reason : string)
    (g : Gateway) :
  (~ exists role_id,
       In role_id (roles (invoker interaction)) /\ role_id <> 0 /\
       (admin_role_id staff = Some role_id \/
        moderator_role_id staff = Some role_id)) ->
  VerificationAdminCog.reverify_user sha256 urlencode config staff env
    interaction user reason g
  = (Returns tt,
     mkGateway (world g) (roles_removed g) (replies g ++ [AdminOnly])
               (direct_messages g)).
Proof.
  intros H. unfold VerificationAdminCog.reverify_user.
  destruct (is_admin staff (invoker interaction)) eqn:E.
  - apply is_admin_spec in E. contradiction.
  - reflexivity.
Qed.

(** A member without roles invokes the command on subject 42. *)
Lemma reverify_needs_admin_witness :
  let g := mkGateway (Scenario.world_42 None) [] [] [] in
  VerificationAdminCog.reverify_user Scenario.digest (fun _ => "service=...")
    Scenario.config (mkStaffRoles (Some 900) (Some 901) None None)
    (VerificationAdminCog.mkEnv 1000 1000 None 1000 "tok" None)
    (mkInteraction (mkMember 7 [1] Scenario.vsb) Scenario.vsb 7)
    (Scenario.member_42 [1; 10]) "Annual check" g
  = (Returns tt, mkGateway (Scenario.world_42 None) [] [AdminOnly] []).
Proof.
  cbv zeta.
  refine (reverify_needs_admin Scenario.digest (fun _ => "service=...")
            Scenario.config (mkStaffRoles (Some 900) (Some 901) None None)
            (VerificationAdminCog.mkEnv 1000 1000 None 1000 "tok" None)
            (mkInteraction (mkMember 7 [1] Scenario.vsb) Scenario.vsb 7)
            (Scenario.member_42 [1; 10]) "Annual check"
            (mkGateway (Scenario.world_42 None) [] [] []) _).
  intros (r & [<-|[]] & Hnz & [H|H]); discriminate.
Defined.






(** A subject that counts as verified gets no link from the button: the
    only effect is the reply that it is already verified; no token is
    stored and no message is sent. *)
Theorem verified_subject_gets_no_link
    (sha256 : string -> string) (urlencode : list (string * string) -> string)
    (config : Config) (env : VerificationCog.Env) (interaction : Interaction)
    (username : string) (g : Gateway) (v : UserVerificationData.t) :
  user_verification_data (db (world g)) !! id (invoker interaction) = Some v ->
  UserVerificationData.reverification_required v = false ->
  VerificationCog.handle_verification_button sha256 urlencode config env
    interaction username g
  = (Returns tt,
     mkGateway (world g) (roles_removed g) (replies g ++ [AlreadyVerified])
               (direct_messages g)).
Proof.
  intros Hv Hflag. unfold VerificationCog.handle_verification_button.
  cbv zeta. grun. rewrite is_verified_iff, Hv, Hflag. cbn [negb]. grun.
  reflexivity.
Qed.

Lemma verified_subject_gets_no_link_witness :
  let v := UserVerificationData.mk 42 "jan.novak" None None 100 100 false None
             None None None 100 in
  let g := mkGateway
             (mkWorld (mkDatabase {[ 42 := Scenario.user_42 ]} {[ 42 := v ]} [] [])
                      [] []) [] [] [] in
  VerificationCog.handle_verification_button Scenario.digest
    (fun _ => "service=...") Scenario.config
    (VerificationCog.mkEnv 1000 "tok" None)
    (mkInteraction (Scenario.member_42 [1; 10]) Scenario.vsb 7) "jan" g
  = (Returns tt, mkGateway (world g) [] [AlreadyVerified] []).
Proof.
  cbv zeta.
  refine (verified_subject_gets_no_link Scenario.digest (fun _ => "service=...")
            Scenario.config (VerificationCog.mkEnv 1000 "tok" None)
            (mkInteraction (Scenario.member_42 [1; 10]) Scenario.vsb 7) "jan"
            (mkGateway
               (mkWorld
                  (mkDatabase {[ 42 := Scenario.user_42 ]}
                     {[ 42 := UserVerificationData.mk 42 "jan.novak" None None
                                100 100 false None None None None 100 ]} [] [])
                  [] []) [] [] [])
            (UserVerificationData.mk 42 "jan.novak" None None 100 100 false
               None None None None 100) eq_refl eq_refl).
Defined.

(** One click of the button by a subject that is not verified, step by
    step. *)
Lemma handle_verification_button_run
    (sha256 : string -> string) (urlencode : list (string * string) -> string)
    (config : Config) (env : VerificationCog.Env) (interaction : Interaction)
    (username : string) (g : Gateway) :
  let user_id := id (invoker interaction) in
  let profile := user_verification_data (db (world g)) !! user_id in
  let marked := match profile with
                | Some v => UserVerificationData.reverification_required v
                | None => false
                end in
  let reason := match profile with
                | Some v => UserVerificationData.reverification_reason v
                | None => None
                end in
  let row :=
    VerificationState.mk
      (CASService.state_hash sha256 config (VerificationCog.token env) user_id)
      user_id (interaction_guild_id interaction) (negb marked)
      (VerificationCog.now_issue env
       + CASService.minutes (verification_state_expiry_minutes config))
      None None in
  let auth_url :=
    cas_login_url config +:+ "?"
      +:+ urlencode [("service", service_url config +:+ "?state="
                                   +:+ VerificationCog.token env)] in
  (profile = None \/ marked = true) ->
  CASService.insert_state row (db (world g)) = None ->
  (marked = true ->
   VerificationCog.dm_answer env = None \/
   exists msg, VerificationCog.dm_answer env = Some (Forbidden msg)) ->
  let r := VerificationCog.handle_verification_button sha256 urlencode config
             env interaction username g in
  fst r = Returns tt /\
  verification_states (db (world (snd r)))
  = verification_states (db (world g)) ++ [row] /\
  users (db (world (snd r))) = users (db (world g)) /\
  user_verification_data (db (world (snd r)))
  = user_verification_data (db (world g)) /\
  replies (snd r)
  = replies g ++ [if marked then ReverificationRequired reason
                  else OpenSSO auth_url] /\
  direct_messages (snd r)
  = direct_messages g
      ++ (if marked
          then match VerificationCog.dm_answer env with
               | None => [(user_id, VerificationLink true auth_url)]
               | Some _ => []
               end
          else []) /\
  roles_removed (snd r) = roles_removed g.
Proof.
  intros user_id profile marked reason row auth_url Hstanding Hinsert Hdm.
  cbv zeta. unfold VerificationCog.handle_verification_button. cbv zeta.
  fold user_id. unfold VerificationCog._send_verification_dm.
  unfold CASService.generate_verification_url.
  unfold CASService.insert_state in *.
  grun. rewrite is_verified_iff. fold profile.
  assert (Hnot : match profile with
                 | Some v => negb (UserVerificationData.reverification_required v)
                 | None => false
                 end = false).
  { subst marked. destruct profile as [v|]; [|reflexivity].
    destruct Hstanding as [H|H]; [discriminate | now rewrite H]. }
  rewrite Hnot. grun. rewrite requires_reverification_reads. fold profile.
  assert (Hread : match profile with
                  | Some v => (UserVerificationData.reverification_required v,
                               UserVerificationData.reverification_reason v)
                  | None => (false, None)
                  end = (marked, reason)).
  { subst marked reason. now destruct profile. }
  rewrite Hread. clear Hread Hnot Hstanding. clearbody marked reason.
  subst row.
  destruct marked;
    cbn [negb VerificationState.state VerificationState.discord_id] in Hinsert;
    repeat (progress
              (crun;
               cbn [user_verification_data set_user_verification_data
                      set_verification_states verification_states users negb
                      VerificationState.state VerificationState.discord_id]));
    rewrite Hinsert;
    repeat (progress
              (crun;
               cbn [user_verification_data set_user_verification_data
                      set_verification_states verification_states users negb
                      fst snd]));
    [|rewrite ?app_nil_r; repeat split; auto].
  destruct (Hdm eq_refl) as [Hdm' | [msg Hdm']]; rewrite Hdm';
    repeat (progress
              (crun;
               cbn [user_verification_data set_user_verification_data
                      set_verification_states verification_states users negb
                      fst snd]));
    rewrite ?app_nil_r; repeat split; auto.
Qed.



(** ** From the command to the callback *)






(** ** The member events *)

Lemma first_fault_None (faults : list (option Exception)) :
  UserEventsCog.first_fault faults = None <-> Forall (fun f => f = None) faults.
Proof.
  induction faults as [|[e|] fs IH]; cbn.
  - split; [constructor | reflexivity].
  - split; [discriminate | intros H; inversion H; discriminate].
  - rewrite IH. split; [now constructor | now inversion 1].
Qed.

Lemma insert_user_None (u : User.t) (login : string) (d : Database) :
  User.login u = Some login ->
  (forall other row, users d !! other = Some row -> User.login row <> Some login) ->
  UserEventsCog.insert_user u d = None.
Proof.
  intros Hlogin Hfree. unfold UserEventsCog.insert_user. rewrite Hlogin.
  destruct (existsb _ _) eqn:E; [|reflexivity].
  apply existsb_exists in E as ([other row] & Hin & Hrow).
  apply list_elem_of_In, elem_of_map_to_list in Hin.
  apply bool_decide_eq_true in Hrow. now apply Hfree in Hin.
Qed.

(** A member who joins the configured guild is registered: a member without
    a user row gets one with the temporary login [discord_<id>], inactive
    and of type 0, provided nobody holds that login; a member who has a row
    keeps it as it is. The join counter of the member starts at 1 or grows
    by one, one [join] event is appended to the history, and profiles and
    pending tokens stay as they are. *)
Theorem member_join_registers
    (config_guild_id : Z) (member : Member) (name : string) (bot : bool)
    (c : Community) :
  let d := db (base c) in
  let login := "discord_" +:+ PyStr.str_of_int (id member) in
  let fresh := User.mk (id member) (Some login) 0 0 None None None None bot in
  (users d !! id member = None ->
   forall other row, users d !! other = Some row -> User.login row <> Some login) ->
  (forall m, user_metrics c !! id member = Some m ->
     UserMetrics.join_count m < UserEventsCog.int4_max) ->
  let r := UserEventsCog.on_member_join config_guild_id config_guild_id member
             name bot c in
  fst r = Returns tt /\
  users (db (base (snd r)))
  = match users d !! id member with
    | Some _ => users d
    | None => <[id member := fresh]> (users d)
    end /\
  user_metrics (snd r)
  = <[id member :=
        match user_metrics c !! id member with
        | Some m =>
            UserMetrics.mk (UserMetrics.discord_id m)
                           (UserMetrics.join_count m + 1)
                           (UserMetrics.bans m) (UserMetrics.kicks m)
        | None => UserMetrics.mk (id member) 1 0 0
        end]> (user_metrics c) /\
  user_status_history (snd r)
  = user_status_history c
      ++ [UserStatusHistory.mk (id member) config_guild_id "join" None None None] /\
  user_verification_data (db (base (snd r))) = user_verification_data d /\
  verification_states (db (base (snd r))) = verification_states d.
Proof.
  intros d login fresh Hfree Hcount. cbv zeta.
  unfold UserEventsCog.on_member_join. rewrite Z.eqb_refl. cbn [negb].
  fold d login fresh.
  assert (Hint : UserEventsCog.int4
                   (UserMetrics.join_count
                      match user_metrics c !! id member with
                      | Some m =>
                          UserMetrics.mk (UserMetrics.discord_id m)
                                         (UserMetrics.join_count m + 1)
                                         (UserMetrics.bans m) (UserMetrics.kicks m)
                      | None => UserMetrics.mk (id member) 1 0 0
                      end) = None).
  { unfold UserEventsCog.int4.
    destruct (user_metrics c !! id member) as [m|] eqn:E; cbn.
    - specialize (Hcount m eq_refl).
      destruct (Z.leb_spec (UserMetrics.join_count m + 1) UserEventsCog.int4_max);
        [reflexivity | lia].
    - reflexivity. }
  destruct (users d !! id member) as [u|] eqn:Hu.
  - cbn [UserEventsCog.first_fault fold_right]. rewrite Hint.
    unfold UserEventsCog.insert_history. cbn [UserStatusHistory.discord_id].
    rewrite Hu. cbn. repeat split; reflexivity.
  - cbn [UserEventsCog.first_fault fold_right].
    rewrite (insert_user_None fresh login d eq_refl (Hfree eq_refl)), Hint.
    unfold UserEventsCog.insert_history. cbn [UserStatusHistory.discord_id].
    rewrite lookup_insert_eq. cbn. repeat split; reflexivity.
Qed.

(** Subject 42 leaves and joins again: the row and the profile stay, the
    counter goes from 1 to 2. *)
Lemma member_join_registers_witness :
  let c := mkCommunity (Scenario.world_42 None)
                       {[ 42 := UserMetrics.mk 42 1 0 0 ]} [] in
  let r := UserEventsCog.on_member_join 7 7 (Scenario.member_42 [1]) "jan"
             false c in
  fst r = Returns tt /\
  users (db (base (snd r))) = {[ 42 := Scenario.user_42 ]} /\
  user_metrics (snd r) !! 42 = Some (UserMetrics.mk 42 2 0 0).
Proof.
  cbv zeta.
  destruct (member_join_registers 7 (Scenario.member_42 [1]) "jan" false
              (mkCommunity (Scenario.world_42 None)
                           {[ 42 := UserMetrics.mk 42 1 0 0 ]} []))
    as (Hreturns & Husers & Hmetrics & _).
  - intros H. vm_compute in H. discriminate.
  - intros m H. vm_compute in H. injection H as <-. reflexivity.
  - split; [exact Hreturns|]. split; [exact Husers|].
    rewrite Hmetrics. reflexivity.
Defined.

(** No member event verifies or unverifies anybody, whatever its outcome:
    joins, leaves, bans and unbans leave profiles, pending tokens, audit
    records and granted roles as they are and keep every user row. *)
Theorem member_events_keep_accounts
    (config_guild_id guild_id : Z) (member : Member) (name : string)
    (bot : bool) (entry : BanEntry) (user : Z) (c : Community) :
  let keeps (c' : Community) :=
    user_verification_data (db (base c')) = user_verification_data (db (base c)) /\
    verification_states (db (base c')) = verification_states (db (base c)) /\
    verification_audit (db (base c')) = verification_audit (db (base c)) /\
    roles_added (base c') = roles_added (base c) /\
    (forall d row, users (db (base c)) !! d = Some row ->
       users (db (base c')) !! d = Some row) /\
    (forall d, fst (VerificationService.is_verified d (base c'))
               = fst (VerificationService.is_verified d (base c))) in
  keeps (snd (UserEventsCog.on_member_join config_guild_id guild_id member
                name bot c)) /\
  keeps (snd (UserEventsCog.on_member_remove config_guild_id guild_id member c)) /\
  keeps (snd (UserEventsCog.on_member_ban config_guild_id entry guild_id user c)) /\
  keeps (snd (UserEventsCog.on_member_unban config_guild_id guild_id user c)).
Proof.
  intros keeps.
  assert (Hkeeps : forall c',
            user_verification_data (db (base c'))
            = user_verification_data (db (base c)) ->
            verification_states (db (base c')) = verification_states (db (base c)) ->
            verification_audit (db (base c')) = verification_audit (db (base c)) ->
            roles_added (base c') = roles_added (base c) ->
            (forall d row, users (db (base c)) !! d = Some row ->
               users (db (base c')) !! d = Some row) ->
            keeps c').
  { intros c' H1 H2 H3 H4 H5. unfold keeps. do 5 (split; [assumption|]).
    intros d. rewrite !is_verified_iff. cbn [fst]. now rewrite H1. }
  split; [|split; [|split]].
  - unfold UserEventsCog.on_member_join.
    destruct (negb _); [apply Hkeeps; auto|].
    destruct (users (db (base c)) !! id member) as [u|] eqn:Hu;
      destruct (UserEventsCog.first_fault _); cbn [snd];
      apply Hkeeps; cbn; auto.
    intros d row H. destruct (decide (d = id member)) as [->|Hne];
      [congruence | now rewrite lookup_insert_ne by congruence].
  - unfold UserEventsCog.on_member_remove.
    destruct (negb _); [apply Hkeeps; auto|].
    destruct (UserEventsCog.insert_history _ _); cbn [snd];
      apply Hkeeps; cbn; auto.
  - unfold UserEventsCog.on_member_ban.
    destruct (negb _); [apply Hkeeps; auto|].
    destruct entry as [reason| |[]]; cbn [snd fst];
      try (apply Hkeeps; cbn; now auto);
      destruct (UserEventsCog.first_fault _); cbn [snd];
      apply Hkeeps; cbn; auto.
  - unfold UserEventsCog.on_member_unban.
    destruct (negb _); [apply Hkeeps; auto|].
    destruct (UserEventsCog.insert_history _ _); cbn [snd];
      apply Hkeeps; cbn; auto.
Qed.

(** The history references the users: in the configured guild, a leave, a
    ban or an unban of a subject that has no user row ends with an
    exception and stores nothing, neither the event nor the ban count. *)
Theorem history_needs_a_user_row
    (config_guild_id : Z) (member : Member) (entry : BanEntry) (c : Community) :
  users (db (base c)) !! id member = None ->
  let refused (r : Outcome unit * Community) :=
    (exists e, fst r = Raises e) /\
    db (base (snd r)) = db (base c) /\
    user_metrics (snd r) = user_metrics c /\
    user_status_history (snd r) = user_status_history c in
  refused (UserEventsCog.on_member_remove config_guild_id config_guild_id
             member c) /\
  refused (UserEventsCog.on_member_ban config_guild_id entry config_guild_id
             (id member) c) /\
  refused (UserEventsCog.on_member_unban config_guild_id config_guild_id
             (id member) c).
Proof.
  intros Hu. cbv zeta.
  unfold UserEventsCog.on_member_remove, UserEventsCog.on_member_ban,
    UserEventsCog.on_member_unban, UserEventsCog.insert_history.
  rewrite Z.eqb_refl. cbn [negb UserStatusHistory.discord_id].
  split; [|split].
  - rewrite Hu. cbn. eauto.
  - destruct entry as [reason| |[]]; cbn [fst snd];
      unfold UserEventsCog.logged; cbn [base db]; rewrite ?Hu; cbn; eauto.
  - rewrite Hu. cbn. eauto.
Qed.

(** A member the bot has never seen join leaves guild 7. *)
Lemma history_needs_a_user_row_witness :
  let c := mkCommunity (Scenario.world_with []) ∅ [] in
  fst (UserEventsCog.on_member_remove 7 7 (Scenario.member_42 [1; 10]) c)
  = Raises (IntegrityError "foreign key: user_status_history.discord_id") /\
  user_status_history
    (snd (UserEventsCog.on_member_ban 7 BanNotFound 7 42 c)) = [].
Proof.
  cbv zeta.
  destruct (history_needs_a_user_row 7 (Scenario.member_42 [1; 10]) BanNotFound
              (mkCommunity (Scenario.world_with []) ∅ []) eq_refl)
    as (((e & He) & _) & (_ & _ & _ & Hban) & _).
  split; [reflexivity | exact Hban].
Defined.


Lemma on_member_join_new
    (config_guild_id : Z) (member : Member) (name : string) (bot : bool)
    (c : Community) :
  let d := db (base c) in
  let login := "discord_" +:+ PyStr.str_of_int (id member) in
  users d !! id member = None ->
  (forall other u, users d !! other = Some u -> User.login u <> Some login) ->
  (forall m, user_metrics c !! id member = Some m ->
     UserMetrics.join_count m < UserEventsCog.int4_max) ->
  exists lines metrics history,
    UserEventsCog.on_member_join config_guild_id config_guild_id member name
      bot c
    = (Returns tt,
       mkCommunity
         (mkWorld
            (mkDatabase
               (<[id member := User.mk (id member) (Some login) 0 0 None None
                                 None None bot]> (users d))
               (user_verification_data d) (verification_states d)
               (verification_audit d))
            lines (roles_added (base c)))
         metrics history).
Proof.
  intros d login Hu Hfree Hcount.
  unfold UserEventsCog.on_member_join. rewrite Z.eqb_refl. cbn [negb].
  fold d login. rewrite Hu.
  cbn [UserEventsCog.first_fault fold_right].
  rewrite (insert_user_None
             (User.mk (id member) (Some login) 0 0 None None None None bot)
             login d eq_refl Hfree).
  assert (UserEventsCog.int4
            (UserMetrics.join_count
               match user_metrics c !! id member with
               | Some m =>
                   UserMetrics.mk (UserMetrics.discord_id m)
                                  (UserMetrics.join_count m + 1)
                                  (UserMetrics.bans m) (UserMetrics.kicks m)
               | None => UserMetrics.mk (id member) 1 0 0
               end) = None) as ->.
  { unfold UserEventsCog.int4.
    destruct (user_metrics c !! id member) as [m|] eqn:E; cbn; [|reflexivity].
    specialize (Hcount m eq_refl).
    destruct (Z.leb_spec (UserMetrics.join_count m + 1) UserEventsCog.int4_max);
      [reflexivity | lia]. }
  unfold UserEventsCog.insert_history. cbn [UserStatusHistory.discord_id].
  rewrite lookup_insert_eq. cbn. eauto.
Qed.

Lemma fresh_state (row : VerificationState.t) (rows : list VerificationState.t) :
  (forall vs, In vs rows ->
     VerificationState.state vs <> VerificationState.state row) ->
  existsb (fun r => String.eqb (VerificationState.state r)
                               (VerificationState.state row)) rows = false.
Proof.
  intros H. destruct (existsb _ _) eqn:E; [|reflexivity].
  apply existsb_exists in E as (vs & Hin & Heq).
  apply String.eqb_eq in Heq. now apply H in Hin.
Qed.

(** A new member joins and clicks the button. The join gives the member the
    user row that a token must reference, so the click stores a token of an
    initial verification for the member and the guild of the interaction
    and answers with the link, sending no message; without the join the
    same click ends with the exception of the foreign key. *)
Theorem joined_member_gets_a_first_link
    (sha256 : string -> string) (urlencode : list (string * string) -> string)
    (config : Config) (config_guild_id : Z) (name : string) (bot : bool)
    (c : Community) (env : VerificationCog.Env) (interaction : Interaction)
    (username : string) (removed0 : list (Z * list Z))
    (replies0 : list Reply) (messages0 : list (Z * Embed)) :
  let member := invoker interaction in
  let d := db (base c) in
  let row :=
    VerificationState.mk
      (CASService.state_hash sha256 config (VerificationCog.token env)
         (id member))
      (id member) (interaction_guild_id interaction) true
      (VerificationCog.now_issue env
       + CASService.minutes (verification_state_expiry_minutes config))
      None None in
  users d !! id member = None ->
  user_verification_data d !! id member = None ->
  (forall other u, users d !! other = Some u ->
     User.login u <> Some ("discord_" +:+ PyStr.str_of_int (id member))) ->
  (forall m, user_metrics c !! id member = Some m ->
     UserMetrics.join_count m < UserEventsCog.int4_max) ->
  (forall vs, In vs (verification_states d) ->
     VerificationState.state vs <> VerificationState.state row) ->
  let click (w : World) :=
    VerificationCog.handle_verification_button sha256 urlencode config env
      interaction username (mkGateway w removed0 replies0 messages0) in
  let joined :=
    snd (UserEventsCog.on_member_join config_guild_id config_guild_id member
           name bot c) in
  let r := click (base joined) in
  fst r = Returns tt /\
  verification_states (db (world (snd r))) = verification_states d ++ [row] /\
  (exists auth_url, replies (snd r) = replies0 ++ [OpenSSO auth_url]) /\
  direct_messages (snd r) = messages0 /\
  (exists msg, fst (click (base c)) = Raises (IntegrityError msg)).
Proof.
  intros member d row Hu Hv Hfree Hcount Hfresh. cbv zeta.
  destruct (on_member_join_new config_guild_id member name bot c Hu Hfree Hcount)
    as (lines & metrics & history & ->).
  cbn [snd base]. fold d.
  pose proof (fresh_state row _ Hfresh) as Hnew.
  split; [|split; [|split; [|split]]].
  5:{ unfold VerificationCog.handle_verification_button. cbv zeta.
      fold member. unfold CASService.generate_verification_url.
      grun. rewrite is_verified_iff. cbn [fst snd world db]. fold d. rewrite Hv.
      grun. rewrite requires_reverification_reads. cbn [db]. fold d. rewrite Hv.
      repeat (progress (crun; cbn [negb])).
      unfold CASService.insert_state. unfold row in Hnew.
      cbn [VerificationState.state VerificationState.discord_id] in *.
      fold d. rewrite Hnew, Hu. cbn. eauto. }
  all: match goal with
       | |- context [VerificationCog.handle_verification_button _ _ _ _ _ _ ?g] =>
           pose proof (handle_verification_button_run sha256 urlencode config
                         env interaction username g) as Hrun
       end;
    cbv zeta in Hrun;
    cbn [world db user_verification_data users verification_states
           replies direct_messages] in Hrun;
    fold member in Hrun; rewrite Hv in Hrun; cbn [negb] in Hrun; fold row in Hrun;
    destruct Hrun as (Hreturns & Hstates & _ & _ & Hreplies & Hmessages & _);
    [ now left
    | unfold CASService.insert_state;
      cbn [VerificationState.state VerificationState.discord_id
             verification_states users];
      fold row; rewrite Hnew, lookup_insert_eq; reflexivity
    | discriminate
    | ].
  - exact Hreturns.
  - exact Hstates.
  - eexists. exact Hreplies.
  - rewrite Hmessages. apply app_nil_r.
Qed.

(** Member 42 joins guild 7 and clicks the button at 1000. *)
Lemma joined_member_gets_a_first_link_witness :
  let c := mkCommunity (Scenario.world_with []) ∅ [] in
  let interaction := mkInteraction (Scenario.member_42 [1]) Scenario.vsb 7 in
  let click (w : World) :=
    VerificationCog.handle_verification_button Scenario.digest
      (fun _ => "service=...") Scenario.config
      (VerificationCog.mkEnv 1000 "tok" None) interaction "jan"
      (mkGateway w [] [] []) in
  let joined :=
    snd (UserEventsCog.on_member_join 7 7 (Scenario.member_42 [1]) "jan" false c) in
  fst (click (base joined)) = Returns tt /\
  verification_states (db (world (snd (click (base joined)))))
  = [VerificationState.mk
       (CASService.state_hash Scenario.digest Scenario.config "tok" 42)
       42 7 true (1000 + CASService.minutes 15) None None] /\
  exists msg, fst (click (base c)) = Raises (IntegrityError msg).
Proof.
  cbv zeta.
  destruct (joined_member_gets_a_first_link Scenario.digest
              (fun _ => "service=...") Scenario.config 7 "jan" false
              (mkCommunity (Scenario.world_with []) ∅ [])
              (VerificationCog.mkEnv 1000 "tok" None)
              (mkInteraction (Scenario.member_42 [1]) Scenario.vsb 7) "jan"
              [] [] [] eq_refl eq_refl)
    as (Hreturns & Hstates & _ & _ & Hraises).
  - intros other u H. vm_compute in H. discriminate.
  - intros m H. vm_compute in H. discriminate.
  - intros vs [].
  - split; [exact Hreturns|]. split; [exact Hstates | exact Hraises].
Defined.
